(** * Img2TxtClient: the upload / extract client of src/index.ts

    The client is a thin sequence of three HTTP calls.  The development
    embeds it over

    - a small model of the JavaScript values the code inspects
      (truthiness, [===], [||], property reads, [Error] objects);
    - the host functions it calls but does not define ([path.basename],
      [encodeURIComponent], [JSON.parse], [JSON.stringify]), kept abstract
      in a class [Host];
    - the outside world (file system, HTTP transport, the multipart
      boundary) as a record [World];
    - an effect monad [Async] that records every request and timer the code
      issues and carries thrown errors, with settled promises made explicit
      so that [await f()] and a bare [return f()] differ as they do in
      JavaScript.

    The statements are proved for every host and every world; a reference
    host and a mock world serve to run the client on concrete inputs. *)

From Stdlib Require Import String Ascii List ZArith NArith Bool Lia.
From Stdlib Require Import DecimalString.
From ExtLib Require Import Structures.Monad Structures.MonadExc.
Import ListNotations.
Import MonadNotation.
Local Open Scope string_scope.
Local Open Scope monad_scope.
Set Warnings "-register-all".

(** ** JavaScript values *)

(** The values that flow through the client: the credential handed to the
    constructor, parsed response bodies, the request payload.  A number is
    the exact decimal [m * 10^e], which covers every finite binary64 value;
    the client only ever tests numbers for truthiness.  An object is the list
    of its own properties in insertion order. *)
Inductive JsVal : Type :=
| JUndefined
| JNull
| JBool (b : bool)
| JNum (m e : Z)
| JStr (s : string)
| JArr (items : list JsVal)
| JObj (fields : list (string * JsVal)).

(** [typeof v === 'string'] *)
Definition is_string (v : JsVal) : bool :=
  match v with JStr _ => true | _ => false end.

(** ToBoolean: [undefined], [null], [false], [0] and [""] are falsy. *)
Definition truthy (v : JsVal) : bool :=
  match v with
  | JUndefined | JNull => false
  | JBool b => b
  | JNum m _ => negb (m =? 0)%Z
  | JStr s => negb (s =? "")
  | JArr _ | JObj _ => true
  end.

(** [a || b] *)
Definition js_or (a b : JsVal) : JsVal := if truthy a then a else b.

(** [v === false] *)
Definition strict_eq_false (v : JsVal) : bool :=
  match v with JBool false => true | _ => false end.

Definition nullish (v : JsVal) : bool :=
  match v with JUndefined | JNull => true | _ => false end.

Fixpoint lookup {V : Type} (k : string) (fields : list (string * V)) : option V :=
  match fields with
  | [] => None
  | (k', v) :: rest => if k =? k' then Some v else lookup k rest
  end.

(** The own property [k] of [v], [undefined] when there is none. *)
Definition field (v : JsVal) (k : string) : JsVal :=
  match v with
  | JObj fields => match lookup k fields with Some x => x | None => JUndefined end
  | _ => JUndefined
  end.

(** [obj[k] = v] on a plain object: an existing property keeps its place, a
    new one goes last. *)
Fixpoint set_prop {V : Type} (k : string) (v : V) (fields : list (string * V))
  : list (string * V) :=
  match fields with
  | [] => [(k, v)]
  | (k', v') :: rest =>
      if k =? k' then (k, v) :: rest else (k', v') :: set_prop k v rest
  end.

(** Object spread [{...a, ...b}]: the properties of [b] are assigned onto a
    copy of [a], in order. *)
Definition spread {V : Type} (a b : list (string * V)) : list (string * V) :=
  fold_left (fun acc kv => set_prop (fst kv) (snd kv) acc) b a.

(** The text of a string value. *)
Definition string_value (v : JsVal) : string :=
  match v with JStr s => s | _ => "" end.

(** Decimal text of an integer-valued number, as a template literal prints
    an HTTP status or a file size. *)
Definition dec (z : Z) : string := NilZero.string_of_int (Z.to_int z).

(** ** Errors *)

(** What [axios.isAxiosError(e) && e.response] looks at. *)
Record Response : Type := mkResponse { status : Z; data : JsVal }.

Inductive ErrKind : Type :=
| Plain
| Axios (response : option Response).

Record JsError : Type := mkJsError {
  err_name : string;
  err_message : string;
  err_kind : ErrKind
}.

(** [new Error(msg)] *)
Definition Error (msg : string) : JsError := mkJsError "Error" msg Plain.

(** [Error.prototype.toString] *)
Definition error_toString (e : JsError) : string :=
  if err_name e =? "" then err_message e
  else if err_message e =? "" then err_name e
  else err_name e ++ ": " ++ err_message e.

(** [`${error.message || error}`] *)
Definition message_or_self (e : JsError) : string :=
  if err_message e =? "" then error_toString e else err_message e.

(** ** The host *)

(** Library functions the client calls.  [JSON_parse s = inl m] stands for a
    [SyntaxError] with message [m]; [JSON_stringify] is [JSON.stringify]
    followed by the string conversion of a template literal;
    [type_error_message v k] is the message of the [TypeError] raised by
    reading property [k] of [v] when [v] is [null] or [undefined];
    [stat_error_message p] is the message of the error [fs.statSync] throws
    on a missing path.  All message texts are engine specific.
    [encodeURIComponent] is total here, while the built-in throws a
    [URIError] on a string that holds a surrogate without its pair: for a
    file of such a name [getUploadUrl] fails before it sends anything.  The
    embedding follows the code on every other name; [has_lone_surrogate]
    below tells which names those are, and the statement about all runs
    ([Sequence]) leaves room for that empty run. *)
Class Host : Type := {
  basename : string -> string;
  encodeURIComponent : string -> string;
  JSON_parse : string -> string + JsVal;
  JSON_stringify : JsVal -> string;
  type_error_message : JsVal -> string -> string;
  stat_error_message : string -> string
}.

(** ** The world *)

Record Stats : Type := mkStats { isFile : bool; size : N }.

Inductive Method : Type := GET | PUT | POST.

(** One [form.append(field, fs.createReadStream(path), filename)]. *)
Record FormPart : Type := mkFormPart {
  part_field : string;
  part_stream : string;
  part_filename : string
}.

Inductive Body : Type :=
| NoBody
| FormBody (form : list FormPart)
| JsonBody (payload : list (string * JsVal)).

(** An axios request.  [req_unbounded] records
    [maxBodyLength: Infinity, maxContentLength: Infinity]. *)
Record Request : Type := mkRequest {
  req_method : Method;
  req_url : JsVal;
  req_body : Body;
  req_headers : list (string * string);
  req_unbounded : bool
}.

(** How an axios promise settles: fulfilled with a response, or rejected
    with an error (an [AxiosError] carrying the response for a status axios
    refuses, one without response for a transport failure, or whatever else
    a transport throws). *)
Inductive Outcome : Type :=
| Resolved (r : Response)
| Rejected (e : JsError).

(** The world a run of the client sees: which paths exist, how the transport
    answers each request, and the boundary the multipart form draws.  One
    run of [process] issues each of its requests once, so answering by
    request loses nothing. *)
Record World : Type := mkWorld {
  fs : string -> option Stats;
  net : Request -> Outcome;
  form_boundary : string
}.

(** ** Effects *)

Inductive Event : Type :=
| Http (r : Request)
| Timer (ms : Z).

Definition is_http (ev : Event) : bool :=
  match ev with Http _ => true | Timer _ => false end.

(** A computation reads the world, issues events in order and either throws
    or returns. *)
Definition Async (A : Type) : Type := World -> list Event * (JsError + A).

#[export] Instance Monad_Async : Monad Async := {
  ret := fun A (a : A) => fun _ => ([], inr a);
  bind := fun A B (m : Async A) (k : A -> Async B) => fun w =>
    match m w with
    | (t, inl e) => (t, inl e)
    | (t, inr a) => let (t', r) := k a w in ((t ++ t')%list, r)
    end
}.

#[export] Instance MonadExc_Async : MonadExc JsError Async := {
  raise := fun A (e : JsError) => fun _ => ([], inl e);
  catch := fun A (m : Async A) (h : JsError -> Async A) => fun w =>
    match m w with
    | (t, inl e) => let (t', r) := h e w in ((t ++ t')%list, r)
    | (t, inr a) => (t, inr a)
    end
}.

Definition emit (ev : Event) : Async unit := fun _ => ([ev], inr tt).

Definition ask : Async World := fun w => ([], inr w).

(** A promise, once its effects have run: fulfilled or rejected. *)
Definition Promise (A : Type) : Type := (JsError + A)%type.

(** Calling an [async] function whose body is [m]: the call itself never
    throws, it hands back a promise. *)
Definition async {A} (m : Async A) : Async (Promise A) :=
  fun w => let (t, r) := m w in (t, inr r).

(** Calling an [async] function whose body ends in [return p] for a promise
    [p]: the returned promise adopts [p]. *)
Definition async_adopt {A} (m : Async (Promise A)) : Async (Promise A) :=
  fun w =>
    match m w with
    | (t, inl e) => (t, inr (inl e))
    | (t, inr p) => (t, inr p)
    end.

(** [await p]: a rejection is thrown at the point of the [await]. *)
Definition await {A} (m : Async (Promise A)) : Async A :=
  fun w =>
    match m w with
    | (t, inl e) => (t, inl e)
    | (t, inr p) => (t, p)
    end.

(** The result a caller of an async function observes. *)
Definition settle {A} (m : Async (Promise A)) (w : World)
  : list Event * (JsError + A) := await m w.

(** ** Primitive operations of the environment *)

Section Client.

Context {host : Host}.

(** [new TypeError(msg)] and [new SyntaxError(msg)], as the engine raises
    them. *)
Definition TypeError (msg : string) : JsError := mkJsError "TypeError" msg Plain.

Definition SyntaxError (msg : string) : JsError :=
  mkJsError "SyntaxError" msg Plain.

(** A property read [v.k].  It throws a [TypeError] on [null] and
    [undefined]; otherwise it yields [field v k]: the own property of an
    object, or [undefined].  The client reads only [url], [key], [ufsUrl],
    [success], [data] and [text], none of which a string, number, boolean or
    array has, so those yield [undefined]. *)
Definition get (v : JsVal) (k : string) : Async JsVal :=
  if nullish v then raise (TypeError (type_error_message v k))
  else ret (field v k).

(** [JSON.parse(s)] as a computation that may throw. *)
Definition parse (s : string) : Async JsVal :=
  match JSON_parse s with
  | inl m => raise (SyntaxError m)
  | inr v => ret v
  end.

(** [fs.existsSync] and [fs.statSync]. *)
Definition existsSync (p : string) : Async bool :=
  w <- ask ;;
  ret (match fs w p with Some _ => true | None => false end).

Definition statSync (p : string) : Async Stats :=
  w <- ask ;;
  match fs w p with
  | Some st => ret st
  | None => raise (Error (stat_error_message p))
  end.

(** An axios call: the request goes out, the promise settles as the
    transport decides. *)
Definition axios (r : Request) : Async (Promise Response) :=
  w <- ask ;;
  emit (Http r) ;;
  ret (match net w r with
       | Resolved resp => inr resp
       | Rejected e => inl e
       end).

(** [new Promise((resolve) => setTimeout(resolve, ms))] *)
Definition delay (ms : Z) : Async (Promise unit) := async (emit (Timer ms)).

(** [form.getHeaders()] *)
Definition form_getHeaders : Async (list (string * string)) :=
  w <- ask ;;
  ret [("content-type", "multipart/form-data; boundary=" ++ form_boundary w)].

(** ** The client *)

Record Img2TxtClient : Type := mkClient {
  baseUrl : string;
  headers : list (string * string)
}.

Definition constructor (apiKey : JsVal) : JsError + Img2TxtClient :=
  if negb (truthy apiKey) || negb (is_string apiKey) then
    inl (Error "API Key is required and must be a string.")
  else
    inr {| baseUrl := "https://img2txt.io/api/";
           headers := [("Authorization", "Bearer " ++ string_value apiKey)] |}.

(** [new Img2TxtClient(apiKey)] as a step of a program. *)
Definition new_Img2TxtClient (apiKey : JsVal) : Async Img2TxtClient :=
  match constructor apiKey with
  | inl e => raise e
  | inr this => ret this
  end.

Definition getUploadUrl (this : Img2TxtClient) (filePath : string)
  : Async (Promise JsVal) :=
  async (
    let fileName := basename filePath in
    st <- statSync filePath ;;
    let fileSize := size st in
    let url := baseUrl this ++ "get-upload-url?name="
               ++ encodeURIComponent fileName ++ "&size=" ++ dec (Z.of_N fileSize) in
    catch
      (resp <- await (axios (mkRequest GET (JStr url) NoBody (headers this) false)) ;;
       let data := data resp in
       url <- get data "url" ;;
       missing <- (if negb (truthy url) then ret true
                   else key <- get data "key" ;; ret (negb (truthy key))) ;;
       if missing : bool then
         raise (Error ("Invalid upload-url response: Missing URL or Key. Status: "
                       ++ dec (status resp)))
       else ret data)
      (fun error =>
         raise (Error ("Failed to get upload URL: " ++ message_or_self error)))).

Definition uploadFile (this : Img2TxtClient) (uploadUrl : JsVal) (filePath : string)
  : Async (Promise JsVal) :=
  async (
    let fileName := basename filePath in
    let form := [mkFormPart "file" filePath fileName] in
    catch
      (formHeaders <- form_getHeaders ;;
       resp <- await (axios (mkRequest PUT uploadUrl (FormBody form)
                               (spread (headers this) formHeaders) true)) ;;
       let data := data resp in
       ufsUrl <- get data "ufsUrl" ;;
       if negb (truthy ufsUrl) then
         raise (Error ("Invalid upload response: Missing UFS URL. Status: "
                       ++ dec (status resp)))
       else get data "ufsUrl")
      (fun error =>
         raise (Error ("Failed to upload file: " ++ message_or_self error)))).

Definition default (d : string) (arg : option string) : string :=
  match arg with Some s => s | None => d end.

Definition imageToText (this : Img2TxtClient) (imageUrl : JsVal)
    (outputType description outputStructure : option string)
  : Async (Promise JsVal) :=
  let outputType := default "raw" outputType in
  let description := default "" description in
  let outputStructure := default "" outputStructure in
  async (
    let url := baseUrl this ++ "image-to-text" in
    let payload := [("imageUrl", imageUrl); ("outputType", JStr outputType)] in
    let payload :=
      if truthy (JStr description)
      then set_prop "description" (JStr description) payload
      else payload in
    payload <-
      (if truthy (JStr outputStructure) then
         catch
           (parsed <- parse outputStructure ;;
            ret (set_prop "outputStructure" (JStr (JSON_stringify parsed)) payload))
           (fun err =>
              raise (Error ("outputStructure must be valid JSON: " ++ err_message err)))
       else ret payload) ;;
    catch
      (resp <- await (axios (mkRequest POST (JStr url) (JsonBody payload)
                               (spread (headers this)
                                  [("Content-Type", "application/json")]) false)) ;;
       let data := data resp in
       success <- get data "success" ;;
       if strict_eq_false success then
         d <- get data "data" ;;
         diag <- (if truthy d then ret d
                  else t <- get data "text" ;; ret (js_or t data)) ;;
         raise (Error ("Processing failed: " ++ JSON_stringify diag))
       else ret data)
      (fun error =>
         match err_kind error with
         | Axios (Some response) =>
             raise (Error ("API call failed: " ++ dec (status response) ++ " - "
                           ++ JSON_stringify (data response)))
         | _ =>
             raise (Error ("Failed to process image: " ++ message_or_self error))
         end)).

(** [process].  The file test is outside the [try].  Inside it the first two
    calls are awaited, so their rejections reach the [catch]; the call to
    [imageToText] is returned without [await], so the [try] block completes
    with the promise itself and the promise of [process] adopts it. *)
Definition process (this : Img2TxtClient) (imagePath : string)
    (outputType description outputStructure : option string)
  : Async (Promise JsVal) :=
  let outputType := default "raw" outputType in
  let description := default "" description in
  let outputStructure := default "" outputStructure in
  async_adopt (
    ex <- existsSync imagePath ;;
    bad <- (if negb ex then ret true
            else st <- statSync imagePath ;; ret (negb (isFile st))) ;;
    if bad : bool then
      raise (Error ("File not found or is not a file: " ++ imagePath))
    else
      catch
        (uploadInfo <- await (getUploadUrl this imagePath) ;;
         url <- get uploadInfo "url" ;;
         ufsUrl <- await (uploadFile this url imagePath) ;;
         await (delay 200) ;;
         imageToText this ufsUrl (Some outputType) (Some description)
           (Some outputStructure))
        (fun error =>
           raise (Error ("Image processing failed: " ++ message_or_self error)))).

End Client.

(** ** A reference host: Node on a POSIX system

    Executable definitions of the host functions, used to run the client on
    concrete inputs.  Strings are read as UTF-8 bytes.  [JSON_parse] follows
    the JSON grammar; numbers are kept as exact decimals (the rounding to
    binary64 is not modelled) and a [\u] escape is stored as the UTF-8
    bytes of its code point.  Message texts are fixed here; a real engine
    words them differently from version to version. *)
Module Node.

Definition slash : ascii := "/"%char.
Definition dquote : ascii := "034"%char.
Definition backslash : ascii := "\"%char.

(** [path.posix.basename]: the last non-empty segment of the path. *)
Fixpoint basename_from (s cur last : string) : string :=
  match s with
  | EmptyString => if cur =? "" then last else cur
  | String c rest =>
      if Ascii.eqb c slash
      then basename_from rest "" (if cur =? "" then last else cur)
      else basename_from rest (cur ++ String c "") last
  end.

Definition basename (p : string) : string := basename_from p "" "".

Definition between (lo hi : N) (c : ascii) : bool :=
  let n := N_of_ascii c in ((lo <=? n) && (n <=? hi))%N.

Definition is_digit : ascii -> bool := between 48 57.

Definition is_alpha (c : ascii) : bool := between 65 90 c || between 97 122 c.

Definition mem_ascii (c : ascii) (set : string) : bool :=
  existsb (Ascii.eqb c) (list_ascii_of_string set).

Definition hex_digit (upper : bool) (n : N) : ascii :=
  ascii_of_N (if (n <? 10)%N then 48 + n else (if upper then 55 else 87) + n).

Definition hex_byte (upper : bool) (c : ascii) : string :=
  let n := N_of_ascii c in
  String (hex_digit upper (n / 16)) (String (hex_digit upper (n mod 16)) "").

(** [encodeURIComponent]: letters, digits and [-_.!~*'()] stay, every
    other byte of the UTF-8 encoding becomes [%XX].  This is the built-in on
    every string it accepts; on a string with a lone surrogate the built-in
    throws. *)
Fixpoint encodeURIComponent (s : string) : string :=
  match s with
  | EmptyString => ""
  | String c rest =>
      (if is_alpha c || is_digit c || mem_ascii c "-_.!~*'()"
       then String c ""
       else "%" ++ hex_byte true c) ++ encodeURIComponent rest
  end.

(** *** Numbers *)

Fixpoint strip_zeros (fuel : nat) (m e : Z) : Z * Z :=
  match fuel with
  | O => (m, e)
  | S fuel =>
      if (m =? 0)%Z then (0, 0)%Z
      else if (m mod 10 =? 0)%Z then strip_zeros fuel (m / 10)%Z (e + 1)%Z
      else (m, e)
  end.

Definition zeros (n : Z) : string :=
  string_of_list_ascii (repeat "0"%char (Z.to_nat n)).

(** [Number::toString] of the decimal [m * 10^e]: plain digits while the
    decimal point falls within 21 digits before or 6 zeros after it,
    exponent notation beyond. *)
Definition number_to_string (m e : Z) : string :=
  let (m', e') := strip_zeros (S (Z.to_nat (Z.log2 (Z.abs m)))) m e in
  if (m' =? 0)%Z then "0"
  else
    let ds := dec (Z.abs m') in
    let k := String.length ds in
    let n := (Z.of_nat k + e')%Z in
    let sign := if (m' <? 0)%Z then "-" else "" in
    sign ++
    (if ((Z.of_nat k <=? n) && (n <=? 21))%Z then ds ++ zeros (n - Z.of_nat k)
     else if ((0 <? n) && (n <=? 21))%Z then
       substring 0 (Z.to_nat n) ds ++ "." ++ substring (Z.to_nat n) k ds
     else if ((-6 <? n) && (n <=? 0))%Z then "0." ++ zeros (- n) ++ ds
     else
       let ex := (n - 1)%Z in
       let es := (if (ex <? 0)%Z then "-" else "+") ++ dec (Z.abs ex) in
       if (k =? 1)%nat then ds ++ "e" ++ es
       else substring 0 1 ds ++ "." ++ substring 1 k ds ++ "e" ++ es).

(** *** [JSON.stringify] *)

Definition escape_char (c : ascii) : string :=
  let n := N_of_ascii c in
  if (n =? 34)%N then String "\" (String dquote "")
  else if (n =? 92)%N then "\\"
  else if (n =? 8)%N then "\b"
  else if (n =? 12)%N then "\f"
  else if (n =? 10)%N then "\n"
  else if (n =? 13)%N then "\r"
  else if (n =? 9)%N then "\t"
  else if (n <? 32)%N then "\u00" ++ hex_byte false c
  else String c "".

Fixpoint escape (s : string) : string :=
  match s with
  | EmptyString => ""
  | String c rest => escape_char c ++ escape rest
  end.

Definition quote (s : string) : string :=
  String dquote (escape s ++ String dquote "").

Definition join (sep : string) (parts : list string) : string :=
  match parts with
  | [] => ""
  | p :: ps => fold_left (fun acc q => acc ++ sep ++ q) ps p
  end.

(** [None] is the [undefined] that [JSON.stringify] returns for
    [undefined]; inside an array it prints as [null], inside an object the
    property is left out. *)
Fixpoint stringify (v : JsVal) : option string :=
  match v with
  | JUndefined => None
  | JNull => Some "null"
  | JBool b => Some (if b then "true" else "false")
  | JNum m e => Some (number_to_string m e)
  | JStr s => Some (quote s)
  | JArr items =>
      Some ("[" ++ join "," (map (fun x => match stringify x with
                                           | Some t => t
                                           | None => "null"
                                           end) items) ++ "]")
  | JObj fields =>
      let fix members (fs : list (string * JsVal)) : list string :=
        match fs with
        | [] => []
        | (k, x) :: rest =>
            match stringify x with
            | Some t => (quote k ++ ":" ++ t) :: members rest
            | None => members rest
            end
        end in
      Some ("{" ++ join "," (members fields) ++ "}")
  end.

Definition JSON_stringify (v : JsVal) : string :=
  match stringify v with Some t => t | None => "undefined" end.

(** *** [JSON.parse] *)

Definition is_ws (c : ascii) : bool :=
  let n := N_of_ascii c in ((n =? 32) || (n =? 9) || (n =? 10) || (n =? 13))%N.

Fixpoint skip_ws (s : string) : string :=
  match s with
  | String c rest => if is_ws c then skip_ws rest else s
  | EmptyString => s
  end.

(** Reads a run of digits: the value accumulated onto [acc], how many digits
    were read, and the rest. *)
Fixpoint digits (s : string) (acc count : Z) : Z * Z * string :=
  match s with
  | String c rest =>
      if is_digit c
      then digits rest (acc * 10 + Z.of_N (N_of_ascii c - 48))%Z (count + 1)%Z
      else (acc, count, s)
  | EmptyString => (acc, count, s)
  end.

Definition parse_fraction (s : string) (int_part : Z) : option (Z * Z * string) :=
  match s with
  | String "." rest =>
      let '(m, count, rest') := digits rest int_part 0%Z in
      if (count =? 0)%Z then None else Some (m, (- count)%Z, rest')
  | _ => Some (int_part, 0%Z, s)
  end.

Definition parse_exponent (s : string) : option (Z * string) :=
  match s with
  | String c rest =>
      if mem_ascii c "eE" then
        let (sign, rest1) :=
          match rest with
          | String "+" r => (1%Z, r)
          | String "-" r => ((-1)%Z, r)
          | _ => (1%Z, rest)
          end in
        let '(x, count, rest2) := digits rest1 0%Z 0%Z in
        if (count =? 0)%Z then None else Some ((sign * x)%Z, rest2)
      else Some (0%Z, s)
  | EmptyString => Some (0%Z, s)
  end.

Definition parse_number (s : string) : option (JsVal * string) :=
  let (negative, s1) :=
    match s with String "-" r => (true, r) | _ => (false, s) end in
  match s1 with
  | String c r =>
      if is_digit c then
        let '(int_part, _, s2) :=
          if Ascii.eqb c "0" then (0%Z, 1%Z, r) else digits s1 0%Z 0%Z in
        match parse_fraction s2 int_part with
        | Some (m, e1, s3) =>
            match parse_exponent s3 with
            | Some (e2, s4) =>
                let (m', e') :=
                  strip_zeros (S (Z.to_nat (Z.log2 m))) m (e1 + e2)%Z in
                Some (JNum (if negative then - m' else m')%Z e', s4)
            | None => None
            end
        | None => None
        end
      else None
  | EmptyString => None
  end.

Definition hex_value (c : ascii) : option N :=
  let n := N_of_ascii c in
  if is_digit c then Some (n - 48)%N
  else if between 65 70 c then Some (n - 55)%N
  else if between 97 102 c then Some (n - 87)%N
  else None.

Definition read_hex4 (s : string) : option (N * string) :=
  match s with
  | String a (String b (String c (String d rest))) =>
      match hex_value a, hex_value b, hex_value c, hex_value d with
      | Some x, Some y, Some z, Some t =>
          Some (((x * 16 + y) * 16 + z) * 16 + t, rest)%N
      | _, _, _, _ => None
      end
  | _ => None
  end.

Definition byte (n : N) : string := String (ascii_of_N n) "".

(** UTF-8 bytes of a code point. *)
Definition utf8 (cp : N) : string :=
  (if cp <? 128 then byte cp
   else if cp <? 2048 then byte (192 + cp / 64) ++ byte (128 + cp mod 64)
   else if cp <? 65536 then
     byte (224 + cp / 4096) ++ byte (128 + (cp / 64) mod 64) ++ byte (128 + cp mod 64)
   else
     byte (240 + cp / 262144) ++ byte (128 + (cp / 4096) mod 64)
     ++ byte (128 + (cp / 64) mod 64) ++ byte (128 + cp mod 64))%N.

Definition simple_escape (c : ascii) : option string :=
  if Ascii.eqb c dquote then Some (String dquote "")
  else if Ascii.eqb c backslash then Some (String backslash "")
  else if Ascii.eqb c "/" then Some "/"
  else if Ascii.eqb c "b" then Some (byte 8)
  else if Ascii.eqb c "f" then Some (byte 12)
  else if Ascii.eqb c "n" then Some (byte 10)
  else if Ascii.eqb c "r" then Some (byte 13)
  else if Ascii.eqb c "t" then Some (byte 9)
  else None.

(** The characters of a string literal after its opening quote.  A high
    surrogate escape followed by a low one is one code point. *)
Fixpoint parse_chars (fuel : nat) (s acc : string) : option (string * string) :=
  match fuel with
  | O => None
  | S fuel =>
      match s with
      | EmptyString => None
      | String c rest =>
          if Ascii.eqb c dquote then Some (acc, rest)
          else if Ascii.eqb c backslash then
            match rest with
            | String "u" rest1 =>
                match read_hex4 rest1 with
                | Some (hi, rest2) =>
                    let alone := parse_chars fuel rest2 (acc ++ utf8 hi) in
                    if ((55296 <=? hi) && (hi <=? 56319))%N then
                      match rest2 with
                      | String b (String "u" rest3) =>
                          if Ascii.eqb b backslash then
                            match read_hex4 rest3 with
                            | Some (lo, rest4) =>
                                if ((56320 <=? lo) && (lo <=? 57343))%N then
                                  parse_chars fuel rest4
                                    (acc ++ utf8 (65536 + (hi - 55296) * 1024
                                                  + (lo - 56320))%N)
                                else alone
                            | None => None
                            end
                          else alone
                      | _ => alone
                      end
                    else alone
                | None => None
                end
            | String e rest1 =>
                match simple_escape e with
                | Some t => parse_chars fuel rest1 (acc ++ t)
                | None => None
                end
            | EmptyString => None
            end
          else if (N_of_ascii c <? 32)%N then None
          else parse_chars fuel rest (acc ++ String c "")
      end
  end.

Definition parse_string (s : string) : option (string * string) :=
  parse_chars (S (String.length s)) s "".

(** A canonical array index: [0], or digits with no leading zero, below
    [2^32 - 1].  Such keys come first in an object, in ascending order. *)
Definition array_index (k : string) : option Z :=
  match k with
  | EmptyString => None
  | String c rest =>
      if is_digit c && negb (Ascii.eqb c "0" && negb (rest =? "")) then
        let '(n, _, rest') := digits k 0%Z 0%Z in
        if (rest' =? "") && (n <? 4294967295)%Z then Some n else None
      else None
  end.

Fixpoint insert_index (n : Z) (k : string) (v : JsVal)
    (fields : list (string * JsVal)) : list (string * JsVal) :=
  match fields with
  | [] => [(k, v)]
  | (k', v') :: rest =>
      match array_index k' with
      | Some n' =>
          if (n <? n')%Z then (k, v) :: fields
          else (k', v') :: insert_index n k v rest
      | None => (k, v) :: fields
      end
  end.

(** Defining property [k] while an object is built from JSON text. *)
Definition define_prop (fields : list (string * JsVal)) (kv : string * JsVal)
  : list (string * JsVal) :=
  let (k, v) := kv in
  match lookup k fields, array_index k with
  | None, Some n => insert_index n k v fields
  | _, _ => set_prop k v fields
  end.

Definition starts_with (p s : string) : option string :=
  if String.prefix p s
  then Some (substring (String.length p) (String.length s) s)
  else None.

Fixpoint parse_value (fuel : nat) (s : string) : option (JsVal * string) :=
  match fuel with
  | O => None
  | S fuel =>
      match skip_ws s with
      | EmptyString => None
      | String c rest as s' =>
          if Ascii.eqb c "{" then
            match skip_ws rest with
            | String "}" r => Some (JObj [], r)
            | _ =>
                match parse_members fuel rest with
                | Some (raw, r) => Some (JObj (fold_left define_prop raw []), r)
                | None => None
                end
            end
          else if Ascii.eqb c "[" then
            match skip_ws rest with
            | String "]" r => Some (JArr [], r)
            | _ =>
                match parse_elements fuel rest with
                | Some (items, r) => Some (JArr items, r)
                | None => None
                end
            end
          else if Ascii.eqb c dquote then
            match parse_string rest with
            | Some (str, r) => Some (JStr str, r)
            | None => None
            end
          else if Ascii.eqb c "-" || is_digit c then parse_number s'
          else
            match starts_with "true" s', starts_with "false" s',
                  starts_with "null" s' with
            | Some r, _, _ => Some (JBool true, r)
            | _, Some r, _ => Some (JBool false, r)
            | _, _, Some r => Some (JNull, r)
            | _, _, _ => None
            end
      end
  end

with parse_elements (fuel : nat) (s : string) : option (list JsVal * string) :=
  match fuel with
  | O => None
  | S fuel =>
      match parse_value fuel s with
      | Some (v, r) =>
          match skip_ws r with
          | String "," r' =>
              match parse_elements fuel r' with
              | Some (vs, r'') => Some (v :: vs, r'')
              | None => None
              end
          | String "]" r' => Some ([v], r')
          | _ => None
          end
      | None => None
      end
  end

with parse_members (fuel : nat) (s : string)
  : option (list (string * JsVal) * string) :=
  match fuel with
  | O => None
  | S fuel =>
      match skip_ws s with
      | String q r =>
          if Ascii.eqb q dquote then
            match parse_string r with
            | Some (k, r1) =>
                match skip_ws r1 with
                | String ":" r2 =>
                    match parse_value fuel r2 with
                    | Some (v, r3) =>
                        match skip_ws r3 with
                        | String "," r4 =>
                            match parse_members fuel r4 with
                            | Some (fs, r5) => Some ((k, v) :: fs, r5)
                            | None => None
                            end
                        | String "}" r4 => Some ([(k, v)], r4)
                        | _ => None
                        end
                    | None => None
                    end
                | _ => None
                end
            | None => None
            end
          else None
      | EmptyString => None
      end
  end.

Definition syntax_error : string := "Unexpected token in JSON".

Definition JSON_parse (s : string) : string + JsVal :=
  match parse_value (2 * String.length s + 2) s with
  | Some (v, rest) =>
      if skip_ws rest =? "" then inr v else inl syntax_error
  | None => inl syntax_error
  end.

Definition type_error_message (v : JsVal) (k : string) : string :=
  "Cannot read properties of "
  ++ (match v with JNull => "null" | _ => "undefined" end)
  ++ " (reading '" ++ k ++ "')".

Definition stat_error_message (p : string) : string :=
  "ENOENT: no such file or directory, stat '" ++ p ++ "'".

#[export] Instance host : Host := {
  basename := Node.basename;
  encodeURIComponent := Node.encodeURIComponent;
  JSON_parse := Node.JSON_parse;
  JSON_stringify := Node.JSON_stringify;
  type_error_message := Node.type_error_message;
  stat_error_message := Node.stat_error_message
}.

End Node.

(** * Vocabulary of the statements *)

Section Vocabulary.

Context {host : Host}.

(** [p] names an existing regular file. *)
Definition regular_file (w : World) (p : string) : bool :=
  match fs w p with Some st => isFile st | None => false end.

(** The three requests the client builds. *)
Definition upload_url_request (this : Img2TxtClient) (st : Stats) (imagePath : string)
  : Request :=
  mkRequest GET
    (JStr (baseUrl this ++ "get-upload-url?name="
           ++ encodeURIComponent (basename imagePath)
           ++ "&size=" ++ dec (Z.of_N (size st))))
    NoBody (headers this) false.

Definition upload_request (this : Img2TxtClient) (w : World) (uploadUrl : JsVal)
    (imagePath : string) : Request :=
  mkRequest PUT uploadUrl
    (FormBody [mkFormPart "file" imagePath (basename imagePath)])
    (spread (headers this)
       [("content-type", "multipart/form-data; boundary=" ++ form_boundary w)])
    true.

Definition extraction_request (this : Img2TxtClient)
    (payload : list (string * JsVal)) : Request :=
  mkRequest POST (JStr (baseUrl this ++ "image-to-text")) (JsonBody payload)
    (spread (headers this) [("Content-Type", "application/json")]) false.

(** The payload of the extraction request: [compact] is the re-serialized
    output structure, when one was given. *)
Definition request_payload (imageUrl : JsVal) (outputType description : string)
    (compact : option string) : list (string * JsVal) :=
  ([("imageUrl", imageUrl); ("outputType", JStr outputType)]
   ++ (if description =? "" then [] else [("description", JStr description)])
   ++ match compact with
      | Some c => [("outputStructure", JStr c)]
      | None => []
      end)%list.

(** What becomes of the [outputStructure] argument: left out when empty,
    rejected with the parser's message, or re-serialized. *)
Definition structure_arg (outputStructure : string) : string + option string :=
  if outputStructure =? "" then inr None
  else match JSON_parse outputStructure with
       | inl m => inl m
       | inr v => inr (Some (JSON_stringify v))
       end.

(** [data.data || data.text || data] *)
Definition diagnostic (body : JsVal) : JsVal :=
  js_or (js_or (field body "data") (field body "text")) body.

(** How each phase turns the settlement of its request into its own. *)
Definition upload_url_result (o : Outcome) : JsError + JsVal :=
  match o with
  | Rejected e => inl (Error ("Failed to get upload URL: " ++ message_or_self e))
  | Resolved r =>
      if nullish (data r) then
        inl (Error ("Failed to get upload URL: "
                    ++ message_or_self
                         (TypeError (type_error_message (data r) "url"))))
      else if truthy (field (data r) "url") && truthy (field (data r) "key") then
        inr (data r)
      else
        inl (Error ("Failed to get upload URL: "
                    ++ ("Invalid upload-url response: Missing URL or Key. Status: "
                        ++ dec (status r))))
  end.

Definition upload_result (o : Outcome) : JsError + JsVal :=
  match o with
  | Rejected e => inl (Error ("Failed to upload file: " ++ message_or_self e))
  | Resolved r =>
      if nullish (data r) then
        inl (Error ("Failed to upload file: "
                    ++ message_or_self
                         (TypeError (type_error_message (data r) "ufsUrl"))))
      else if truthy (field (data r) "ufsUrl") then inr (field (data r) "ufsUrl")
      else
        inl (Error ("Failed to upload file: "
                    ++ ("Invalid upload response: Missing UFS URL. Status: "
                        ++ dec (status r))))
  end.

Definition extraction_result (o : Outcome) : JsError + JsVal :=
  match o with
  | Rejected e =>
      match err_kind e with
      | Axios (Some response) =>
          inl (Error ("API call failed: " ++ dec (status response) ++ " - "
                      ++ JSON_stringify (data response)))
      | _ => inl (Error ("Failed to process image: " ++ message_or_self e))
      end
  | Resolved r =>
      if nullish (data r) then
        inl (Error ("Failed to process image: "
                    ++ message_or_self
                         (TypeError (type_error_message (data r) "success"))))
      else if strict_eq_false (field (data r) "success") then
        inl (Error ("Failed to process image: "
                    ++ ("Processing failed: " ++ JSON_stringify (diagnostic (data r)))))
      else inr (data r)
  end.

Definition not_found (p : string) : JsError :=
  Error ("File not found or is not a file: " ++ p).

(** The wrapping done by the [catch] of [process]. *)
Definition outer (e : JsError) : JsError :=
  Error ("Image processing failed: " ++ message_or_self e).

(** [process] as a decision tree over the world. *)
Definition process_outcome (this : Img2TxtClient) (p : string)
    (outputType description outputStructure : option string) (w : World)
  : list Event * (JsError + JsVal) :=
  match fs w p with
  | None => ([], inl (not_found p))
  | Some st =>
      if isFile st then
        let g := upload_url_request this st p in
        match upload_url_result (net w g) with
        | inl e => ([Http g], inl (outer e))
        | inr info =>
            let u := upload_request this w (field info "url") p in
            match upload_result (net w u) with
            | inl e => ([Http g; Http u], inl (outer e))
            | inr ufsUrl =>
                match structure_arg (default "" outputStructure) with
                | inl m =>
                    ([Http g; Http u; Timer 200],
                     inl (Error ("outputStructure must be valid JSON: " ++ m)))
                | inr c =>
                    let x := extraction_request this
                               (request_payload ufsUrl (default "raw" outputType)
                                  (default "" description) c) in
                    ([Http g; Http u; Timer 200; Http x],
                     extraction_result (net w x))
                end
            end
        end
      else ([], inl (not_found p))
  end.

(** What has been issued when the third phase starts. *)
Definition uploaded (this : Img2TxtClient) (w : World) (p : string) (st : Stats)
    (r1 : Response) : list Event :=
  [Http (upload_url_request this st p);
   Http (upload_request this w (field (data r1) "url") p);
   Timer 200].

(** A JavaScript string is written by the bytes of its UTF-8 encoding, a
    surrogate without its pair by the three bytes [ED A0..BF 80..BF] of its own
    code point.  [ED] is never a continuation byte, so looking for [ED]
    followed by [A0..BF] finds them all.  These are the strings on which the
    built-in [encodeURIComponent] throws. *)
Fixpoint has_lone_surrogate (s : string) : bool :=
  match s with
  | EmptyString => false
  | String a rest =>
      match rest with
      | EmptyString => false
      | String b _ =>
          ((N_of_ascii a =? 237) && (160 <=? N_of_ascii b)
           && (N_of_ascii b <=? 191))%N
          || has_lone_surrogate rest
      end
  end.

(** An answer the next step can go on with: a resolved upload-URL request
    whose body has a truthy [url] and a truthy [key], a resolved upload whose
    body has a truthy [ufsUrl]. *)
Definition usable_destination (o : Outcome) : bool :=
  match o with
  | Resolved r => truthy (field (data r) "url") && truthy (field (data r) "key")
  | Rejected _ => false
  end.

Definition usable_upload (o : Outcome) : bool :=
  match o with
  | Resolved r => truthy (field (data r) "ufsUrl")
  | Rejected _ => false
  end.

(** The runs of [process]: the events issued, in order, and how the run
    ends.  Each request is built from the answer to the one before it, and a
    run stops early only for the reason its step gives:
    - before anything is sent, when the path is no regular file (or its base
      name cannot be encoded);
    - after the GET, when the answer is no usable destination;
    - after the PUT, when the answer is no usable upload;
    - after the wait, when the output structure is rejected.
    Otherwise the run is complete: GET, PUT, one timer of 200 ms, POST. *)
Inductive Sequence (this : Img2TxtClient) (p : string)
    (outputType description outputStructure : option string) (w : World)
  : list Event -> JsError + JsVal -> Prop :=
| seq_no_file (e : JsError) :
    regular_file w p = false \/ has_lone_surrogate (basename p) = true ->
    Sequence this p outputType description outputStructure w [] (inl e)
| seq_no_destination (st : Stats) (e : JsError) :
    fs w p = Some st -> isFile st = true ->
    usable_destination (net w (upload_url_request this st p)) = false ->
    Sequence this p outputType description outputStructure w
      [Http (upload_url_request this st p)] (inl e)
| seq_no_upload (st : Stats) (r1 : Response) (e : JsError) :
    fs w p = Some st -> isFile st = true ->
    net w (upload_url_request this st p) = Resolved r1 ->
    usable_destination (Resolved r1) = true ->
    usable_upload (net w (upload_request this w (field (data r1) "url") p))
    = false ->
    Sequence this p outputType description outputStructure w
      [Http (upload_url_request this st p);
       Http (upload_request this w (field (data r1) "url") p)] (inl e)
| seq_no_extraction (st : Stats) (r1 r2 : Response) (m : string) (e : JsError) :
    fs w p = Some st -> isFile st = true ->
    net w (upload_url_request this st p) = Resolved r1 ->
    usable_destination (Resolved r1) = true ->
    net w (upload_request this w (field (data r1) "url") p) = Resolved r2 ->
    usable_upload (Resolved r2) = true ->
    structure_arg (default "" outputStructure) = inl m ->
    Sequence this p outputType description outputStructure w
      [Http (upload_url_request this st p);
       Http (upload_request this w (field (data r1) "url") p);
       Timer 200] (inl e)
| seq_complete (st : Stats) (r1 r2 : Response) (c : option string)
    (res : JsError + JsVal) :
    fs w p = Some st -> isFile st = true ->
    net w (upload_url_request this st p) = Resolved r1 ->
    usable_destination (Resolved r1) = true ->
    net w (upload_request this w (field (data r1) "url") p) = Resolved r2 ->
    usable_upload (Resolved r2) = true ->
    structure_arg (default "" outputStructure) = inr c ->
    Sequence this p outputType description outputStructure w
      [Http (upload_url_request this st p);
       Http (upload_request this w (field (data r1) "url") p);
       Timer 200;
       Http (extraction_request this
               (request_payload (field (data r2) "ufsUrl")
                  (default "raw" outputType) (default "" description) c))]
      res.

End Vocabulary.

(** * A mock world

    One image on disk and a transport that answers by method, as a test
    double would.  The host is [Node.host]. *)
Module Example.

#[local] Existing Instance Node.host.

Definition cat : string := "/tmp/cat.png".

Definition disk (p : string) : option Stats :=
  if p =? "/tmp/cat.png" then Some (mkStats true 2048)
  else if p =? "/tmp" then Some (mkStats false 4096)
  else None.

Definition transport (get put post : Outcome) (r : Request) : Outcome :=
  match req_method r with GET => get | PUT => put | POST => post end.

Definition world (get put post : Outcome) : World :=
  mkWorld disk (transport get put post) "----boundary".

Definition client : Img2TxtClient :=
  mkClient "https://img2txt.io/api/" [("Authorization", "Bearer KEY")].

Definition ok (body : JsVal) : Outcome := Resolved (mkResponse 200 body).

Definition destination : JsVal :=
  JObj [("url", JStr "https://storage.example/put/abc"); ("key", JStr "abc")].

Definition stored : JsVal := JObj [("ufsUrl", JStr "https://cdn.example/f/abc")].

Definition extracted : JsVal :=
  JObj [("success", JBool true); ("text", JStr "hello");
        ("creditsLeft", JNum 86115 (-3))].

(** Bodies of extraction responses that do not say [success: true]. *)
Definition out_of_credit : JsVal :=
  JObj [("success", JBool false); ("text", JStr "no credits left")].

Definition zero_flag : JsVal := JObj [("success", JNum 0 0); ("text", JStr "hi")].

(** A transport-level failure: an [AxiosError] with no response. *)
Definition hang_up : Outcome :=
  Rejected (mkJsError "AxiosError" "socket hang up" (Axios None)).

Definition get_cat : Request :=
  mkRequest GET
    (JStr "https://img2txt.io/api/get-upload-url?name=cat.png&size=2048")
    NoBody [("Authorization", "Bearer KEY")] false.

Definition put_cat : Request :=
  mkRequest PUT (JStr "https://storage.example/put/abc")
    (FormBody [mkFormPart "file" "/tmp/cat.png" "cat.png"])
    [("Authorization", "Bearer KEY");
     ("content-type", "multipart/form-data; boundary=----boundary")]
    true.

Definition post_cat (payload : list (string * JsVal)) : Request :=
  mkRequest POST (JStr "https://img2txt.io/api/image-to-text") (JsonBody payload)
    [("Authorization", "Bearer KEY"); ("Content-Type", "application/json")] false.

(** The structure template of the repository's own test, in one line. *)
Definition template : string :=
  "{ " ++ Node.quote "destinations" ++ ": [ " ++ Node.quote "" ++ " ] }".

Definition compact_template : string :=
  "{" ++ Node.quote "destinations" ++ ":[" ++ Node.quote "" ++ "]}".

(** The world in which every phase succeeds, and what it holds. *)
Definition happy : World := world (ok destination) (ok stored) (ok extracted).

Definition stats_of_cat : Stats := mkStats true 2048.

Definition info_of_cat : Response := mkResponse 200 destination.

Definition stored_cat : Response := mkResponse 200 stored.

Definition ufsUrl_of_cat : JsVal := JStr "https://cdn.example/f/abc".

Definition plain_payload : list (string * JsVal) :=
  [("imageUrl", ufsUrl_of_cat); ("outputType", JStr "raw")].

(** The upload-URL answer comes without [key]. *)
Definition keyless : World :=
  world (ok (JObj [("url", JStr "https://storage.example/put/abc")]))
    (ok stored) (ok extracted).

(** An answer with a status axios refuses: an [AxiosError] that carries the
    response. *)
Definition payment_required : JsVal := JObj [("error", JStr "payment required")].

Definition refused_status : Outcome :=
  Rejected (mkJsError "AxiosError" "Request failed with status code 402"
              (Axios (Some (mkResponse 402 payment_required)))).

(** An upload-URL answer whose [url] is present and empty. *)
Definition empty_url : JsVal := JObj [("url", JStr ""); ("key", JStr "abc")].

(** An upload answer whose [ufsUrl] is present and [null]. *)
Definition null_ufsUrl : JsVal := JObj [("ufsUrl", JNull)].

(** The same destination under another key, another status and one more
    field. *)
Definition other_destination : Response :=
  mkResponse 201
    (JObj [("key", JStr "zzz"); ("expires", JNum 60 0);
           ("url", JStr "https://storage.example/put/abc")]).

Definition transport_with (get : Response) (r : Request) : Outcome :=
  match req_method r with
  | GET => Resolved get
  | PUT => ok stored
  | POST => ok extracted
  end.

End Example.

(** * Verification *)

Section Proofs.

Context {host : Host}.

#[local] Arguments String.append : simpl never.
#[local] Arguments dec : simpl never.

(** Case analysis on everything a phase branches on. *)
Ltac settle_branches :=
  repeat (cbn;
    match goal with
    | |- context [net ?w ?r] => destruct (net w r) as [? | ?]
    | |- context [if nullish ?v then _ else _] => destruct (nullish v) eqn:?
    | |- context [if strict_eq_false ?v then _ else _] =>
        destruct (strict_eq_false v) eqn:?
    | |- context [if truthy ?v then _ else _] => destruct (truthy v) eqn:?
    | |- context [match err_kind ?e with _ => _ end] =>
        destruct (err_kind e) as [ | [? | ] ]
    | |- context [match JSON_parse ?s with _ => _ end] =>
        destruct (JSON_parse s) as [? | ?]
    end).

(** ** Each phase in closed form *)

Lemma message_or_self_nonempty (n : string) (c : ascii) (s t : string) (k : ErrKind) :
  message_or_self (mkJsError n (String c s ++ t) k) = String c s ++ t.
Proof. reflexivity. Qed.

Lemma getUploadUrl_run (this : Img2TxtClient) (p : string) (w : World) (st : Stats) :
  fs w p = Some st ->
  getUploadUrl this p w =
  ([Http (upload_url_request this st p)],
   inr (upload_url_result (net w (upload_url_request this st p)))).
Proof.
  intros Hfs.
  unfold getUploadUrl, async, statSync, axios, get, upload_url_result.
  cbn. rewrite Hfs. cbn.
  fold (upload_url_request this st p).
  destruct (net w _) as [r | e]; cbn; [ | reflexivity ].
  destruct (nullish (data r)) eqn:Hn; cbn; [ reflexivity | ].
  destruct (truthy (field (data r) "url")); cbn; [ | reflexivity ].
  destruct (truthy (field (data r) "key")); reflexivity.
Qed.

Lemma uploadFile_run (this : Img2TxtClient) (u : JsVal) (p : string) (w : World) :
  uploadFile this u p w =
  ([Http (upload_request this w u p)],
   inr (upload_result (net w (upload_request this w u p)))).
Proof.
  unfold uploadFile, async, form_getHeaders, axios, get, upload_result.
  cbn.
  fold (upload_request this w u p).
  destruct (net w _) as [r | e]; cbn; [ | reflexivity ].
  destruct (nullish (data r)) eqn:Hn; cbn; [ reflexivity | ].
  destruct (truthy (field (data r) "ufsUrl")); reflexivity.
Qed.

Lemma imageToText_run (this : Img2TxtClient) (imageUrl : JsVal)
    (ot d os : string) (w : World) :
  imageToText this imageUrl (Some ot) (Some d) (Some os) w =
  match structure_arg os with
  | inl m => ([], inr (inl (Error ("outputStructure must be valid JSON: " ++ m))))
  | inr c =>
      let x := extraction_request this (request_payload imageUrl ot d c) in
      ([Http x], inr (extraction_result (net w x)))
  end.
Proof.
  unfold imageToText, async, parse, axios, get, structure_arg,
    extraction_result, request_payload, diagnostic, js_or, extraction_request.
  cbn.
  destruct (d =? "") eqn:Hd; destruct (os =? "") eqn:Ho; cbn;
    settle_branches; try reflexivity; congruence.
Qed.

Lemma upload_url_result_inv (o : Outcome) (info : JsVal) :
  upload_url_result o = inr info ->
  exists r, o = Resolved r /\ data r = info /\ nullish info = false
            /\ truthy (field info "url") = true /\ truthy (field info "key") = true.
Proof.
  destruct o as [r | e]; cbn; [ | discriminate ].
  destruct (nullish (data r)) eqn:Hn; [ discriminate | ].
  destruct (truthy (field (data r) "url")) eqn:Hu; [ | discriminate ].
  destruct (truthy (field (data r) "key")) eqn:Hk; [ | discriminate ].
  cbn. intros H; injection H as <-. exists r. auto.
Qed.

Lemma upload_result_inv (o : Outcome) (ufsUrl : JsVal) :
  upload_result o = inr ufsUrl ->
  exists r, o = Resolved r /\ field (data r) "ufsUrl" = ufsUrl /\ truthy ufsUrl = true.
Proof.
  destruct o as [r | e]; cbn; [ | discriminate ].
  destruct (nullish (data r)); [ discriminate | ].
  destruct (truthy (field (data r) "ufsUrl")) eqn:Hu; [ | discriminate ].
  intros H; injection H as <-. exists r. auto.
Qed.

Lemma truthy_readable (v : JsVal) (k : string) :
  truthy (field v k) = true -> nullish v = false.
Proof. destruct v; cbn; congruence. Qed.

Lemma upload_url_result_ok (r : Response) :
  truthy (field (data r) "url") = true ->
  truthy (field (data r) "key") = true ->
  upload_url_result (Resolved r) = inr (data r).
Proof.
  intros Hu Hk. cbn. rewrite (truthy_readable _ _ Hu), Hu, Hk. reflexivity.
Qed.

Lemma upload_result_ok (r : Response) :
  truthy (field (data r) "ufsUrl") = true ->
  upload_result (Resolved r) = inr (field (data r) "ufsUrl").
Proof.
  intros Hu. cbn. rewrite (truthy_readable _ _ Hu), Hu. reflexivity.
Qed.

#[local] Arguments getUploadUrl : simpl never.
#[local] Arguments uploadFile : simpl never.
#[local] Arguments imageToText : simpl never.

(** ** [process] in closed form *)

Lemma process_run (this : Img2TxtClient) (p : string)
    (ot d os : option string) (w : World) :
  settle (process this p ot d os) w = process_outcome this p ot d os w.
Proof.
  unfold settle, process, process_outcome, await, async_adopt, existsSync,
    statSync, delay, async, get.
  cbn.
  destruct (fs w p) as [st | ] eqn:Hfs; cbn; [ | reflexivity ].
  rewrite Hfs; cbn.
  destruct (isFile st); cbn; [ | reflexivity ].
  rewrite (getUploadUrl_run this p w st Hfs).
  destruct (upload_url_result _) as [e | info] eqn:H1; [ reflexivity | ].
  destruct (upload_url_result_inv _ _ H1) as (r & _ & _ & Hn & _).
  rewrite Hn; cbn.
  rewrite uploadFile_run.
  destruct (upload_result _) as [e | ufsUrl] eqn:H2; cbn; [ reflexivity | ].
  rewrite imageToText_run.
  destruct (structure_arg _) as [m | c]; reflexivity.
Qed.

(** A failure of the first or of the second phase reaches the caller
    wrapped twice: by its step and by [process]. *)
Lemma upload_url_failure_wrapped_twice (this : Img2TxtClient) (p : string)
    (ot d os : option string) (w : World) (st : Stats) (e : JsError) :
  fs w p = Some st -> isFile st = true ->
  net w (upload_url_request this st p) = Rejected e ->
  snd (settle (process this p ot d os) w) =
  inl (Error ("Image processing failed: "
              ++ ("Failed to get upload URL: " ++ message_or_self e))).
Proof.
  intros Hfs Hreg Hnet. rewrite process_run. unfold process_outcome.
  rewrite Hfs, Hreg, Hnet. reflexivity.
Qed.

Lemma upload_failure_wrapped_twice (this : Img2TxtClient) (p : string)
    (ot d os : option string) (w : World) (st : Stats) (r1 : Response)
    (e : JsError) :
  fs w p = Some st -> isFile st = true ->
  net w (upload_url_request this st p) = Resolved r1 ->
  truthy (field (data r1) "url") = true ->
  truthy (field (data r1) "key") = true ->
  net w (upload_request this w (field (data r1) "url") p) = Rejected e ->
  snd (settle (process this p ot d os) w) =
  inl (Error ("Image processing failed: "
              ++ ("Failed to upload file: " ++ message_or_self e))).
Proof.
  intros Hfs Hreg Hget Hu Hk Hput. rewrite process_run. unfold process_outcome.
  rewrite Hfs, Hreg, Hget, (upload_url_result_ok _ Hu Hk). cbn zeta.
  rewrite Hput. reflexivity.
Qed.

(** ** The file test *)

(** C4.  When the path names no existing regular file, [process] fails with
    the file-not-found error and issues no event at all: no request goes
    out. *)
Theorem process_rejects_missing_file (this : Img2TxtClient) (p : string)
    (ot d os : option string) (w : World) :
  regular_file w p = false ->
  settle (process this p ot d os) w =
  ([], inl (Error ("File not found or is not a file: " ++ p))).
Proof.
  intros H. rewrite process_run. unfold process_outcome, regular_file in *.
  destruct (fs w p) as [st | ]; [ rewrite H | ]; reflexivity.
Qed.

(** ** Responses that lack a required field *)

(** C5.  When the answer to the upload-URL request lacks [url] or [key],
    [process] fails with the upload-URL error, wrapped by [process], and
    the only request issued is that GET: the PUT is never attempted.  A body
    that is [null] or [undefined] lacks both; reading it raises the
    [TypeError] that the step then wraps. *)
Theorem missing_destination_field_stops_process (this : Img2TxtClient)
    (p : string) (ot d os : option string) (w : World) (st : Stats)
    (r : Response) :
  fs w p = Some st -> isFile st = true ->
  net w (upload_url_request this st p) = Resolved r ->
  field (data r) "url" = JUndefined \/ field (data r) "key" = JUndefined ->
  settle (process this p ot d os) w =
  ([Http (upload_url_request this st p)],
   inl (Error ("Image processing failed: "
               ++ ("Failed to get upload URL: "
                   ++ (if nullish (data r)
                       then message_or_self
                              (TypeError (type_error_message (data r) "url"))
                       else "Invalid upload-url response: Missing URL or Key. Status: "
                            ++ dec (status r)))))).
Proof.
  intros Hfs Hreg Hnet Hlack. rewrite process_run. unfold process_outcome.
  rewrite Hfs, Hreg, Hnet. cbn.
  destruct (nullish (data r)); [ reflexivity | ].
  assert (truthy (field (data r) "url") && truthy (field (data r) "key") = false)
    as ->.
  { destruct Hlack as [-> | ->]; cbn; [ reflexivity | apply andb_false_r ]. }
  reflexivity.
Qed.

(** C6.  When the answer to the upload lacks [ufsUrl], [process] fails with
    the upload error, wrapped by [process]; the GET and the PUT are the only
    events: no wait, no extraction request. *)
Theorem missing_ufsUrl_stops_process (this : Img2TxtClient) (p : string)
    (ot d os : option string) (w : World) (st : Stats) (r1 r2 : Response) :
  fs w p = Some st -> isFile st = true ->
  net w (upload_url_request this st p) = Resolved r1 ->
  truthy (field (data r1) "url") = true ->
  truthy (field (data r1) "key") = true ->
  net w (upload_request this w (field (data r1) "url") p) = Resolved r2 ->
  field (data r2) "ufsUrl" = JUndefined ->
  settle (process this p ot d os) w =
  ([Http (upload_url_request this st p);
    Http (upload_request this w (field (data r1) "url") p)],
   inl (Error ("Image processing failed: "
               ++ ("Failed to upload file: "
                   ++ (if nullish (data r2)
                       then message_or_self
                              (TypeError (type_error_message (data r2) "ufsUrl"))
                       else "Invalid upload response: Missing UFS URL. Status: "
                            ++ dec (status r2)))))).
Proof.
  intros Hfs Hreg Hget Hu Hk Hput Hlack. rewrite process_run.
  unfold process_outcome.
  rewrite Hfs, Hreg, Hget, (upload_url_result_ok _ Hu Hk). cbn zeta.
  rewrite Hput. cbn. rewrite Hlack.
  destruct (nullish (data r2)); reflexivity.
Qed.

(** ** The order of the phases *)




(** The reasons exclude one another: for a name that can be encoded, the
    world and the arguments leave one sequence of events and no other. *)
Lemma Sequence_determines_events (this : Img2TxtClient) (p : string)
    (ot d os : option string) (w : World) (t t' : list Event)
    (r r' : JsError + JsVal) :
  has_lone_surrogate (basename p) = false ->
  Sequence this p ot d os w t r -> Sequence this p ot d os w t' r' -> t = t'.
Proof.
  intros Hname H H'.
  destruct H; destruct H'; unfold regular_file in *;
    repeat match goal with
           | H : _ \/ _ |- _ => destruct H
           | H : fs w p = Some _ |- _ => rewrite H in *
           end;
    congruence.
Qed.

(** ** After a successful upload *)

Section Uploaded.

Variables (this : Img2TxtClient) (w : World) (p : string).
Variables (st : Stats) (r1 r2 : Response).

Hypothesis file_exists : fs w p = Some st.
Hypothesis file_regular : isFile st = true.
Hypothesis destination_received :
  net w (upload_url_request this st p) = Resolved r1.
Hypothesis url_present : truthy (field (data r1) "url") = true.
Hypothesis key_present : truthy (field (data r1) "key") = true.
Hypothesis upload_received :
  net w (upload_request this w (field (data r1) "url") p) = Resolved r2.
Hypothesis ufsUrl_present : truthy (field (data r2) "ufsUrl") = true.

(** From here on [process] is [imageToText], nothing added: whatever the
    third phase raises is what the caller sees. *)
Lemma process_uploaded (ot d os : option string) :
  settle (process this p ot d os) w =
  match structure_arg (default "" os) with
  | inl m =>
      (uploaded this w p st r1,
       inl (Error ("outputStructure must be valid JSON: " ++ m)))
  | inr c =>
      let x := extraction_request this
                 (request_payload (field (data r2) "ufsUrl") (default "raw" ot)
                    (default "" d) c) in
      ((uploaded this w p st r1 ++ [Http x])%list, extraction_result (net w x))
  end.
Proof.
  rewrite process_run. unfold process_outcome.
  rewrite file_exists, file_regular, destination_received,
    (upload_url_result_ok _ url_present key_present).
  cbn zeta.
  rewrite upload_received, (upload_result_ok _ ufsUrl_present).
  destruct (structure_arg _); reflexivity.
Qed.

Lemma third_phase_surfaces_as_is (ot d os : option string) :
  snd (settle (process this p ot d os) w)
  = snd (await (imageToText this (field (data r2) "ufsUrl")
                  (Some (default "raw" ot)) (Some (default "" d))
                  (Some (default "" os))) w).
Proof.
  rewrite process_uploaded. unfold await. rewrite imageToText_run.
  destruct (structure_arg _); reflexivity.
Qed.

(** C2.  With valid answers in all three phases, [process] returns the body
    of the extraction response as it is.  The payload of the extraction
    request holds the [ufsUrl] of the upload under [imageUrl], always holds
    [outputType], holds [description] exactly when it is not empty, and holds
    under [outputStructure] the text [JSON.stringify(JSON.parse(s))] of a
    non-empty valid structure [s], and nothing when [s] is empty. *)
Theorem process_returns_extraction (ot d os : option string)
    (c : option string) (r3 : Response) :
  let payload :=
    request_payload (field (data r2) "ufsUrl") (default "raw" ot)
      (default "" d) c in
  structure_arg (default "" os) = inr c ->
  net w (extraction_request this payload) = Resolved r3 ->
  nullish (data r3) = false ->
  field (data r3) "success" <> JBool false ->
  settle (process this p ot d os) w =
    ((uploaded this w p st r1 ++ [Http (extraction_request this payload)])%list,
     inr (data r3))
  /\ lookup "imageUrl" payload = Some (field (data r2) "ufsUrl")
  /\ lookup "outputType" payload = Some (JStr (default "raw" ot))
  /\ lookup "description" payload =
       (if default "" d =? "" then None else Some (JStr (default "" d)))
  /\ lookup "outputStructure" payload =
       (if default "" os =? "" then None
        else match JSON_parse (default "" os) with
             | inr v => Some (JStr (JSON_stringify v))
             | inl _ => None
             end).
Proof.
  intros payload Hc Hpost Hread Hok.
  split.
  - rewrite process_uploaded, Hc. cbn zeta. fold payload. rewrite Hpost.
    cbn. rewrite Hread.
    destruct (field (data r3) "success") as [ | | [ | ] | | | | ];
      try reflexivity.
    congruence.
  - unfold structure_arg in Hc. subst payload. unfold request_payload.
    destruct (default "" d =? ""); destruct (default "" os =? "").
    all: try (injection Hc as <-; cbn; auto).
    all: destruct (JSON_parse (default "" os)); try discriminate;
      injection Hc as <-; cbn; auto.
Qed.

(** C7.  An extraction response whose body sets [success] to [false] is a
    failure, for [imageToText] and so for [process]: the error carries the
    serialized [data.data || data.text || data] of the body.  The same body
    under a status that axios rejects is a failure too, reported with the
    status and the serialized body. *)
Theorem explicit_failure_raises (ot d os : string) (c : option string)
    (r3 : Response) :
  let ufsUrl := field (data r2) "ufsUrl" in
  let x := extraction_request this (request_payload ufsUrl ot d c) in
  let run := settle (process this p (Some ot) (Some d) (Some os)) w in
  structure_arg os = inr c ->
  field (data r3) "success" = JBool false ->
  (net w x = Resolved r3 ->
   let failure :=
     Error ("Failed to process image: "
            ++ ("Processing failed: "
                ++ JSON_stringify
                     (js_or (js_or (field (data r3) "data") (field (data r3) "text"))
                        (data r3)))) in
   await (imageToText this ufsUrl (Some ot) (Some d) (Some os)) w
     = ([Http x], inl failure)
   /\ run = ((uploaded this w p st r1 ++ [Http x])%list, inl failure))
  /\ (forall e, net w x = Rejected e -> err_kind e = Axios (Some r3) ->
      run = ((uploaded this w p st r1 ++ [Http x])%list,
             inl (Error ("API call failed: " ++ dec (status r3) ++ " - "
                         ++ JSON_stringify (data r3))))).
Proof.
  intros ufsUrl x run Hc Hfalse. subst run. rewrite process_uploaded.
  cbn [default]. rewrite Hc. cbn zeta. fold ufsUrl. fold x.
  assert (nullish (data r3) = false) as Hread.
  { destruct (data r3); cbn in Hfalse; try discriminate; reflexivity. }
  split.
  - intros Hpost. unfold await. rewrite imageToText_run, Hc. cbn zeta.
    fold x. rewrite Hpost. cbn. rewrite Hread, Hfalse. cbn. auto.
  - intros e Hpost Hkind. rewrite Hpost. cbn. rewrite Hkind. reflexivity.
Qed.

(** C10, as amended.  Whenever the body of the extraction response can be
    read (it is neither [null] nor [undefined]) and its [success] is not the
    boolean [false], be it absent, [0], [null] or the string [false],
    [process] returns the body. *)
Theorem only_literal_false_fails (ot d os : option string) (c : option string)
    (r3 : Response) :
  let x := extraction_request this
             (request_payload (field (data r2) "ufsUrl") (default "raw" ot)
                (default "" d) c) in
  structure_arg (default "" os) = inr c ->
  net w x = Resolved r3 ->
  nullish (data r3) = false ->
  field (data r3) "success" <> JBool false ->
  snd (settle (process this p ot d os) w) = inr (data r3).
Proof.
  intros x Hc Hpost Hread Hok.
  rewrite process_uploaded, Hc. cbn zeta. fold x. rewrite Hpost.
  cbn. rewrite Hread.
  destruct (field (data r3) "success") as [ | | [ | ] | | | | ];
    try reflexivity.
  congruence.
Qed.

(** X2.  A rejected extraction request is reported by its kind.  When the
    rejection carries a response (a status axios refuses), the error gives the
    status and the serialized body, whatever the body says, and the message of
    the rejection itself is dropped.  When it carries none (a transport
    failure) or is no axios error, the error gives the message. *)
Theorem extraction_rejection_reported_by_kind (ot d os : option string)
    (c : option string) (e : JsError) :
  let x := extraction_request this
             (request_payload (field (data r2) "ufsUrl") (default "raw" ot)
                (default "" d) c) in
  let run := settle (process this p ot d os) w in
  structure_arg (default "" os) = inr c ->
  net w x = Rejected e ->
  (forall response, err_kind e = Axios (Some response) ->
   run = ((uploaded this w p st r1 ++ [Http x])%list,
          inl (Error ("API call failed: " ++ dec (status response) ++ " - "
                      ++ JSON_stringify (data response)))))
  /\ (err_kind e = Axios None \/ err_kind e = Plain ->
      run = ((uploaded this w p st r1 ++ [Http x])%list,
             inl (Error ("Failed to process image: " ++ message_or_self e)))).
Proof.
  intros x run Hc Hpost. subst run. rewrite process_uploaded, Hc. cbn zeta.
  fold x. rewrite Hpost. cbn [extraction_result].
  split.
  - intros response ->. reflexivity.
  - intros [-> | ->]; reflexivity.
Qed.

(** X3.  An extraction response whose body is [null] or [undefined] cannot be
    read: [process] fails with the [TypeError] of the read, wrapped by the
    step. *)
Theorem unreadable_extraction_body_fails (ot d os : option string)
    (c : option string) (r3 : Response) :
  let x := extraction_request this
             (request_payload (field (data r2) "ufsUrl") (default "raw" ot)
                (default "" d) c) in
  structure_arg (default "" os) = inr c ->
  net w x = Resolved r3 ->
  nullish (data r3) = true ->
  settle (process this p ot d os) w =
  ((uploaded this w p st r1 ++ [Http x])%list,
   inl (Error ("Failed to process image: "
               ++ message_or_self
                    (TypeError (type_error_message (data r3) "success"))))).
Proof.
  intros x Hc Hpost Hnull. rewrite process_uploaded, Hc. cbn zeta.
  fold x. rewrite Hpost. cbn [extraction_result]. rewrite Hnull. reflexivity.
Qed.

(** X14.  Once the upload has succeeded, [process] settles exactly as
    [imageToText] does on the stored URL: its events follow the three issued
    so far, and its value or its error is the caller's, unchanged.  The call
    is returned, not awaited, so the [catch] of [process] adds nothing to an
    error of the third step. *)
Theorem process_settles_as_imageToText (ot d os : option string) :
  settle (process this p ot d os) w
  = ((uploaded this w p st r1
      ++ fst (await (imageToText this (field (data r2) "ufsUrl")
                       (Some (default "raw" ot)) (Some (default "" d))
                       (Some (default "" os))) w))%list,
     snd (await (imageToText this (field (data r2) "ufsUrl")
                   (Some (default "raw" ot)) (Some (default "" d))
                   (Some (default "" os))) w)).
Proof.
  rewrite process_uploaded. unfold await. rewrite imageToText_run.
  destruct (structure_arg _); reflexivity.
Qed.

End Uploaded.

(** ** An output structure that is not JSON *)

Lemma structure_arg_invalid (os m : string) :
  os <> "" -> JSON_parse os = inl m -> structure_arg os = inl m.
Proof.
  intros Hne Hparse. unfold structure_arg.
  destruct (String.eqb_spec os ""); [ contradiction | ].
  rewrite Hparse. reflexivity.
Qed.

(** C1, as amended.  With a non-empty [outputStructure] that is not valid
    JSON, [process] always fails and never issues the extraction request.
    The structure is parsed in the third phase: when the first two phases
    succeed, their two requests and the wait have been issued, and the
    failure is the JSON-parse error carrying the parser's message. *)
Theorem invalid_structure_fails_before_extraction (this : Img2TxtClient)
    (p : string) (ot d : option string) (os m : string) (w : World) :
  os <> "" -> JSON_parse os = inl m ->
  let run := settle (process this p ot d (Some os)) w in
  (exists e, snd run = inl e)
  /\ (forall r, In (Http r) (fst run) -> req_method r <> POST)
  /\ (forall st r1 r2,
        fs w p = Some st -> isFile st = true ->
        net w (upload_url_request this st p) = Resolved r1 ->
        truthy (field (data r1) "url") = true ->
        truthy (field (data r1) "key") = true ->
        net w (upload_request this w (field (data r1) "url") p) = Resolved r2 ->
        truthy (field (data r2) "ufsUrl") = true ->
        run = (uploaded this w p st r1,
               inl (Error ("outputStructure must be valid JSON: " ++ m)))).
Proof.
  intros Hne Hparse run. subst run.
  pose proof (structure_arg_invalid os m Hne Hparse) as Harg.
  split; [ | split ].
  - rewrite process_run. unfold process_outcome. cbn [default]. rewrite Harg.
    destruct (fs w p) as [st | ]; [ | eexists; reflexivity ].
    destruct (isFile st); [ | eexists; reflexivity ].
    destruct (upload_url_result _); [ eexists; reflexivity | ]. cbn zeta.
    destruct (upload_result _); eexists; reflexivity.
  - intros r. rewrite process_run. unfold process_outcome. cbn [default].
    rewrite Harg.
    destruct (fs w p) as [st | ]; [ | intros [] ].
    destruct (isFile st); [ | intros [] ].
    destruct (upload_url_result _); cbn zeta;
      [ | destruct (upload_result _) ]; cbn [fst In]; intros H;
      repeat (destruct H as [H | H]; [ injection H as <- || discriminate H | ]);
      try contradiction H; cbn; discriminate.
  - intros st r1 r2 Hfs Hreg Hget Hu Hk Hput Hufs.
    rewrite (process_uploaded this w p st r1 r2 Hfs Hreg Hget Hu Hk Hput Hufs).
    cbn [default]. rewrite Harg. reflexivity.
Qed.

(** ** The credential *)

Lemma request_in_run (this : Img2TxtClient) (p : string) (ot d os : option string)
    (w : World) (r : Request) :
  In (Http r) (fst (settle (process this p ot d os) w)) ->
  req_headers r = headers this
  \/ (exists k v, req_headers r = spread (headers this) [(k, v)]
                  /\ (k =? "Authorization") = false).
Proof.
  rewrite process_run. unfold process_outcome.
  destruct (fs w p) as [st | ]; [ | intros [] ].
  destruct (isFile st); [ | intros [] ].
  destruct (upload_url_result _); cbn zeta;
    [ | destruct (upload_result _); [ | destruct (structure_arg _) ] ];
    cbn [fst In]; intros H;
    repeat (destruct H as [H | H]; [ injection H as <- || discriminate H | ]);
    try contradiction H; cbn [req_headers upload_url_request upload_request
                              extraction_request];
    auto; right; do 2 eexists; split; reflexivity.
Qed.

(** C9.  An empty string, [undefined] or any value that is not a string is
    refused by the constructor, so a program that starts by constructing the
    client stops there with nothing issued.  For a non-empty string the
    constructor succeeds, the client holds the header [Authorization: Bearer
    <key>], and every request of every later [process] call carries it. *)
Theorem credential_contract (apiKey : JsVal) (s : string) :
  (apiKey = JStr "" \/ apiKey = JUndefined \/ is_string apiKey = false ->
   constructor apiKey = inl (Error "API Key is required and must be a string.")
   /\ forall (A : Type) (rest : Img2TxtClient -> Async A) (w : World),
        (this <- new_Img2TxtClient apiKey ;; rest this) w
        = ([], inl (Error "API Key is required and must be a string.")))
  /\ (apiKey = JStr s -> s <> "" ->
      exists this,
        constructor apiKey = inr this
        /\ headers this = [("Authorization", "Bearer " ++ s)]
        /\ forall p ot d os w r,
             In (Http r) (fst (settle (process this p ot d os) w)) ->
             lookup "Authorization" (req_headers r) = Some ("Bearer " ++ s)).
Proof.
  split.
  - intros Hbad.
    assert (constructor apiKey
            = inl (Error "API Key is required and must be a string.")) as Hc.
    { unfold constructor.
      destruct Hbad as [-> | [-> | Hs]]; [ reflexivity | reflexivity | ].
      rewrite Hs, orb_true_r. reflexivity. }
    split; [ exact Hc | ].
    intros A rest w. unfold new_Img2TxtClient. rewrite Hc. reflexivity.
  - intros -> Hne. eexists. split; [ | split ].
    + unfold constructor. cbn.
      destruct (String.eqb_spec s ""); [ contradiction | ]. reflexivity.
    + reflexivity.
    + intros p ot d os w r Hin.
      destruct (request_in_run _ _ _ _ _ _ _ Hin) as [-> | (k & v & -> & Hk)].
      * reflexivity.
      * cbn. rewrite Hk. reflexivity.
Qed.

(** ** Further properties of the three steps *)

Lemma imageToText_defaults (this : Img2TxtClient) (imageUrl : JsVal)
    (ot d os : option string) :
  imageToText this imageUrl ot d os
  = imageToText this imageUrl (Some (default "raw" ot)) (Some (default "" d))
      (Some (default "" os)).
Proof. reflexivity. Qed.

(** X1.  [imageToText] checks the output structure before it sends anything:
    with a non-empty structure that is not valid JSON it issues no request
    and rejects with the parse error. *)
Theorem imageToText_rejects_invalid_structure (this : Img2TxtClient)
    (imageUrl : JsVal) (ot d : option string) (os m : string) (w : World) :
  os <> "" -> JSON_parse os = inl m ->
  await (imageToText this imageUrl ot d (Some os)) w
  = ([], inl (Error ("outputStructure must be valid JSON: " ++ m))).
Proof.
  intros Hne Hparse. unfold await.
  rewrite imageToText_defaults, imageToText_run. cbn [default].
  rewrite (structure_arg_invalid os m Hne Hparse). reflexivity.
Qed.

(** X4.  A rejected upload-URL request, whether the transport failed or the
    status was refused, stops [process] after that one request.  The error
    carries both layers of context around the message of the rejection; the
    status and the body of a refused answer are not reported. *)
Theorem upload_url_rejection_stops_process (this : Img2TxtClient) (p : string)
    (ot d os : option string) (w : World) (st : Stats) (e : JsError) :
  fs w p = Some st -> isFile st = true ->
  net w (upload_url_request this st p) = Rejected e ->
  settle (process this p ot d os) w =
  ([Http (upload_url_request this st p)],
   inl (Error ("Image processing failed: "
               ++ ("Failed to get upload URL: " ++ message_or_self e)))).
Proof.
  intros Hfs Hreg Hnet. rewrite process_run. unfold process_outcome.
  rewrite Hfs, Hreg, Hnet. reflexivity.
Qed.

(** X5.  A rejected upload stops [process] after the GET and the PUT: no
    wait, no extraction request.  The error carries both layers of context
    around the message of the rejection. *)
Theorem upload_rejection_stops_process (this : Img2TxtClient) (p : string)
    (ot d os : option string) (w : World) (st : Stats) (r1 : Response)
    (e : JsError) :
  fs w p = Some st -> isFile st = true ->
  net w (upload_url_request this st p) = Resolved r1 ->
  truthy (field (data r1) "url") = true ->
  truthy (field (data r1) "key") = true ->
  net w (upload_request this w (field (data r1) "url") p) = Rejected e ->
  settle (process this p ot d os) w =
  ([Http (upload_url_request this st p);
    Http (upload_request this w (field (data r1) "url") p)],
   inl (Error ("Image processing failed: "
               ++ ("Failed to upload file: " ++ message_or_self e)))).
Proof.
  intros Hfs Hreg Hget Hu Hk Hput. rewrite process_run. unfold process_outcome.
  rewrite Hfs, Hreg, Hget, (upload_url_result_ok _ Hu Hk). cbn zeta.
  rewrite Hput. reflexivity.
Qed.

(** X6.  The upload-URL answer is tested for truthiness, not for presence: a
    [url] or [key] that is there but empty, [0], [false] or [null] counts as
    missing, and [process] stops after the GET with the same error. *)
Theorem falsy_destination_field_stops_process (this : Img2TxtClient)
    (p : string) (ot d os : option string) (w : World) (st : Stats)
    (r : Response) :
  fs w p = Some st -> isFile st = true ->
  net w (upload_url_request this st p) = Resolved r ->
  nullish (data r) = false ->
  truthy (field (data r) "url") = false \/ truthy (field (data r) "key") = false ->
  settle (process this p ot d os) w =
  ([Http (upload_url_request this st p)],
   inl (Error ("Image processing failed: "
               ++ ("Failed to get upload URL: "
                   ++ ("Invalid upload-url response: Missing URL or Key. Status: "
                       ++ dec (status r)))))).
Proof.
  intros Hfs Hreg Hnet Hread Hfalsy. rewrite process_run. unfold process_outcome.
  rewrite Hfs, Hreg, Hnet. cbn. rewrite Hread.
  assert (truthy (field (data r) "url") && truthy (field (data r) "key") = false)
    as ->.
  { destruct Hfalsy as [-> | ->]; [ reflexivity | apply andb_false_r ]. }
  reflexivity.
Qed.

(** X7.  Likewise for the upload answer: an [ufsUrl] that is there but falsy
    counts as missing, and [process] stops after the PUT. *)
Theorem falsy_ufsUrl_stops_process (this : Img2TxtClient) (p : string)
    (ot d os : option string) (w : World) (st : Stats) (r1 r2 : Response) :
  fs w p = Some st -> isFile st = true ->
  net w (upload_url_request this st p) = Resolved r1 ->
  truthy (field (data r1) "url") = true ->
  truthy (field (data r1) "key") = true ->
  net w (upload_request this w (field (data r1) "url") p) = Resolved r2 ->
  nullish (data r2) = false ->
  truthy (field (data r2) "ufsUrl") = false ->
  settle (process this p ot d os) w =
  ([Http (upload_url_request this st p);
    Http (upload_request this w (field (data r1) "url") p)],
   inl (Error ("Image processing failed: "
               ++ ("Failed to upload file: "
                   ++ ("Invalid upload response: Missing UFS URL. Status: "
                       ++ dec (status r2)))))).
Proof.
  intros Hfs Hreg Hget Hu Hk Hput Hread Hfalsy. rewrite process_run.
  unfold process_outcome.
  rewrite Hfs, Hreg, Hget, (upload_url_result_ok _ Hu Hk). cbn zeta.
  rewrite Hput. cbn. rewrite Hread, Hfalsy. reflexivity.
Qed.

(** ** What a run can end in *)

Lemma extraction_result_inv (o : Outcome) (v : JsVal) :
  extraction_result o = inr v ->
  exists r, o = Resolved r /\ data r = v /\ nullish v = false
            /\ field v "success" <> JBool false.
Proof.
  destruct o as [r | e]; cbn.
  - destruct (nullish (data r)) eqn:Hn; [ discriminate | ].
    destruct (strict_eq_false (field (data r) "success")) eqn:Hs;
      [ discriminate | ].
    intros H; injection H as <-. exists r. repeat split; auto.
    intros Heq. rewrite Heq in Hs. discriminate.
  - destruct (err_kind e) as [ | [? | ] ]; discriminate.
Qed.

(** X8.  [process] returns a value only at the end of the complete sequence,
    and the value is the body of the extraction response: a body that can be
    read and whose [success] is not [false].  A caller never receives a
    response flagged as failed. *)
Theorem process_result_is_extraction_body (this : Img2TxtClient) (p : string)
    (ot d os : option string) (w : World) (v : JsVal) :
  snd (settle (process this p ot d os) w) = inr v ->
  nullish v = false
  /\ field v "success" <> JBool false
  /\ exists st r1 r2 c r3,
       fs w p = Some st /\ isFile st = true
       /\ net w (upload_url_request this st p) = Resolved r1
       /\ net w (upload_request this w (field (data r1) "url") p) = Resolved r2
       /\ structure_arg (default "" os) = inr c
       /\ net w (extraction_request this
                   (request_payload (field (data r2) "ufsUrl")
                      (default "raw" ot) (default "" d) c)) = Resolved r3
       /\ data r3 = v
       /\ fst (settle (process this p ot d os) w)
          = (uploaded this w p st r1
             ++ [Http (extraction_request this
                         (request_payload (field (data r2) "ufsUrl")
                            (default "raw" ot) (default "" d) c))])%list.
Proof.
  rewrite process_run. unfold process_outcome.
  destruct (fs w p) as [st | ] eqn:Hfs; [ | discriminate ].
  destruct (isFile st) eqn:Hreg; [ | discriminate ].
  destruct (upload_url_result _) as [e | info] eqn:H1; [ discriminate | ].
  destruct (upload_url_result_inv _ _ H1) as (r1 & Hget & <- & _).
  cbn zeta.
  destruct (upload_result _) as [e | ufsUrl] eqn:H2; [ discriminate | ].
  destruct (upload_result_inv _ _ H2) as (r2 & Hput & <- & _).
  destruct (structure_arg _) as [m | c] eqn:H3; [ discriminate | ].
  cbn [snd fst]. intros H4.
  destruct (extraction_result_inv _ _ H4) as (r3 & Hpost & Hv & Hread & Hok).
  split; [ exact Hread | split; [ exact Hok | ] ].
  exists st, r1, r2, c, r3. repeat split; auto.
Qed.

Lemma Error_is_plain (c : ascii) (s t : string) :
  err_name (Error (String c s ++ t)) = "Error"
  /\ err_kind (Error (String c s ++ t)) = Plain
  /\ err_message (Error (String c s ++ t)) <> "".
Proof. repeat split. discriminate. Qed.

(** X9.  Whatever goes wrong, the error [process] rejects with is a plain
    [Error] with a message: never the [AxiosError], [TypeError] or
    [SyntaxError] that caused it, and so never one that carries a response. *)
Theorem process_errors_are_plain (this : Img2TxtClient) (p : string)
    (ot d os : option string) (w : World) (e : JsError) :
  snd (settle (process this p ot d os) w) = inl e ->
  err_name e = "Error" /\ err_kind e = Plain /\ err_message e <> "".
Proof.
  rewrite process_run. unfold process_outcome, not_found, outer.
  destruct (fs w p) as [st | ];
    [ | intros H; injection H as <-; apply Error_is_plain ].
  destruct (isFile st);
    [ | intros H; injection H as <-; apply Error_is_plain ].
  destruct (upload_url_result _);
    [ intros H; injection H as <-; apply Error_is_plain | ].
  cbn zeta.
  destruct (upload_result _);
    [ intros H; injection H as <-; apply Error_is_plain | ].
  destruct (structure_arg _);
    [ intros H; injection H as <-; apply Error_is_plain | ].
  cbn [snd]. unfold extraction_result.
  destruct (net w _) as [r | e'].
  - destruct (nullish (data r));
      [ intros H; injection H as <-; apply Error_is_plain | ].
    destruct (strict_eq_false _);
      [ intros H; injection H as <-; apply Error_is_plain | discriminate ].
  - destruct (err_kind e') as [ | [? | ] ];
      intros H; injection H as <-; apply Error_is_plain.
Qed.

(** ** What the requests look like *)

(** X10.  Every request of every run has the shape of its step.  The GET has
    no body.  The PUT goes to a truthy URL, carries one form part, the file
    streamed from the path under the field [file] and its base name, and is
    the only request sent with unbounded body and content length.  The POST
    carries a JSON payload that holds [outputType] and a truthy
    [imageUrl]. *)
Theorem request_shapes (this : Img2TxtClient) (p : string)
    (ot d os : option string) (w : World) (r : Request) :
  In (Http r) (fst (settle (process this p ot d os) w)) ->
  match req_method r with
  | GET => req_body r = NoBody /\ req_unbounded r = false
  | PUT =>
      req_body r = FormBody [mkFormPart "file" p (basename p)]
      /\ req_unbounded r = true
      /\ truthy (req_url r) = true
  | POST =>
      req_unbounded r = false
      /\ exists payload imageUrl,
           req_body r = JsonBody payload
           /\ lookup "outputType" payload = Some (JStr (default "raw" ot))
           /\ lookup "imageUrl" payload = Some imageUrl
           /\ truthy imageUrl = true
  end.
Proof.
  rewrite process_run. unfold process_outcome.
  destruct (fs w p) as [st | ]; [ | intros [] ].
  destruct (isFile st); [ | intros [] ].
  destruct (upload_url_result _) as [e | info] eqn:H1; cbn zeta.
  { cbn [fst In]. intros [H | []]. injection H as <-. cbn. auto. }
  destruct (upload_url_result_inv _ _ H1) as (r1 & _ & _ & _ & Hu & _).
  destruct (upload_result _) as [e | ufsUrl] eqn:H2.
  { cbn [fst In]. intros [H | [H | []]]; injection H as <-; cbn; auto. }
  destruct (upload_result_inv _ _ H2) as (r2 & _ & _ & Hufs).
  destruct (structure_arg _) as [m | c]; cbn [fst In].
  - intros [H | [H | [H | []]]]; try discriminate H;
      injection H as <-; cbn; auto.
  - intros [H | [H | [H | [H | []]]]]; try discriminate H;
      injection H as <-; cbn; auto.
    split; [ reflexivity | ]. do 2 eexists.
    split; [ reflexivity | ]. split; [ reflexivity | ].
    split; [ reflexivity | exact Hufs ].
Qed.

(** X11.  Of the upload-URL answer only [url] is used.  [key] has to be
    truthy and is never looked at again; the status and any other field play
    no part.  Two worlds that differ only in those run alike. *)
Theorem run_ignores_key (this : Img2TxtClient) (p : string)
    (ot d os : option string) (w w' : World) (st : Stats) (r1 r1' : Response) :
  fs w p = Some st -> fs w' p = Some st -> isFile st = true ->
  form_boundary w' = form_boundary w ->
  (forall r, req_method r <> GET -> net w' r = net w r) ->
  net w (upload_url_request this st p) = Resolved r1 ->
  net w' (upload_url_request this st p) = Resolved r1' ->
  field (data r1') "url" = field (data r1) "url" ->
  truthy (field (data r1) "url") = true ->
  truthy (field (data r1) "key") = true ->
  truthy (field (data r1') "key") = true ->
  settle (process this p ot d os) w' = settle (process this p ot d os) w.
Proof.
  intros Hfs Hfs' Hreg Hb Hnet Hget Hget' Hurl Hu Hk Hk'.
  assert (truthy (field (data r1') "url") = true) as Hu' by (rewrite Hurl; exact Hu).
  rewrite !process_run. unfold process_outcome.
  rewrite Hfs, Hfs', Hreg, Hget, Hget'.
  rewrite (upload_url_result_ok _ Hu Hk), (upload_url_result_ok _ Hu' Hk').
  cbn zeta. rewrite Hurl.
  assert (upload_request this w' (field (data r1) "url") p
          = upload_request this w (field (data r1) "url") p) as ->.
  { unfold upload_request. rewrite Hb. reflexivity. }
  rewrite (Hnet (upload_request this w (field (data r1) "url") p))
    by (cbn; discriminate).
  destruct (upload_result _); [ reflexivity | ].
  destruct (structure_arg _); [ reflexivity | ].
  cbn zeta. rewrite Hnet by (cbn; discriminate). reflexivity.
Qed.

(** X12.  The output structure reaches the service through
    [JSON.stringify(JSON.parse(s))] only: two non-empty structures that parse
    to the same value, say the same template with different white space, give
    the same run, request for request. *)
Theorem structures_with_same_parse_run_alike (this : Img2TxtClient)
    (p : string) (ot d : option string) (os os' : string) (v : JsVal)
    (w : World) :
  os <> "" -> os' <> "" ->
  JSON_parse os = inr v -> JSON_parse os' = inr v ->
  settle (process this p ot d (Some os')) w
  = settle (process this p ot d (Some os)) w.
Proof.
  intros Hne Hne' Hparse Hparse'. rewrite !process_run.
  unfold process_outcome, structure_arg. cbn [default].
  destruct (String.eqb_spec os ""); [ contradiction | ].
  destruct (String.eqb_spec os' ""); [ contradiction | ].
  rewrite Hparse, Hparse'. reflexivity.
Qed.

(** X13.  For a client the constructor built, every request of every run
    carries exactly the headers of its step and goes to the fixed endpoint of
    its step: the GET to [get-upload-url] with the encoded base name and the
    size of the file, under the [Authorization] header alone; the PUT under
    [Authorization] and the multipart content type with the boundary of the
    form; the POST to [image-to-text] under [Authorization] and the JSON
    content type. *)
Theorem constructed_client_requests (apiKey : JsVal) (this : Img2TxtClient)
    (p : string) (ot d os : option string) (w : World) (r : Request) :
  constructor apiKey = inr this ->
  In (Http r) (fst (settle (process this p ot d os) w)) ->
  let auth := ("Authorization", "Bearer " ++ string_value apiKey) in
  match req_method r with
  | GET =>
      req_headers r = [auth]
      /\ exists st,
           fs w p = Some st
           /\ req_url r
              = JStr ("https://img2txt.io/api/get-upload-url?name="
                      ++ encodeURIComponent (basename p)
                      ++ "&size=" ++ dec (Z.of_N (size st)))
  | PUT =>
      req_headers r
      = [auth;
         ("content-type", "multipart/form-data; boundary=" ++ form_boundary w)]
  | POST =>
      req_headers r = [auth; ("Content-Type", "application/json")]
      /\ req_url r = JStr "https://img2txt.io/api/image-to-text"
  end.
Proof.
  intros Hc. unfold constructor in Hc.
  destruct (negb (truthy apiKey) || negb (is_string apiKey)); [ discriminate | ].
  injection Hc as <-.
  rewrite process_run. unfold process_outcome.
  destruct (fs w p) as [st | ] eqn:Hfs; [ | intros [] ].
  destruct (isFile st); [ | intros [] ].
  destruct (upload_url_result _); cbn zeta;
    [ | destruct (upload_result _); [ | destruct (structure_arg _) ] ];
    cbn [fst In]; intros H;
    repeat (destruct H as [H | H]; [ injection H as <- || discriminate H | ]);
    try contradiction H; cbn;
    try reflexivity; try (split; [ reflexivity | ]);
    try reflexivity; exists st; split; reflexivity.
Qed.

End Proofs.

(** * Runs on the mock world *)

Module Scenarios.

Import Example.

#[local] Existing Instance Node.host.

(** The mock world answers as the requests of the client expect. *)
Example happy_run :
  settle (process client cat None None None) happy
  = ([Http get_cat; Http put_cat; Timer 200; Http (post_cat plain_payload)],
     inr extracted).
Proof. vm_compute. reflexivity. Qed.

Example client_constructed : constructor (JStr "KEY") = inr client.
Proof. reflexivity. Qed.

(** In the world where every answer is usable, the complete sequence is the
    only one the order of the phases allows. *)
Example happy_sequence_is_complete (t : list Event) (r : JsError + JsVal) :
  Sequence client cat None None None happy t r ->
  t = [Http get_cat; Http put_cat; Timer 200; Http (post_cat plain_payload)].
Proof.
  intros H.
  refine (Sequence_determines_events client cat None None None happy t _ r
            (inr extracted) _ H _).
  - reflexivity.
  - refine (seq_complete client cat None None None happy stats_of_cat
              info_of_cat stored_cat None (inr extracted) _ _ _ _ _ _ _);
      reflexivity.
Qed.

(** A name with a surrogate that has no pair, and one without. *)
Example lone_surrogates :
  has_lone_surrogate (Node.utf8 55357) = true
  /\ has_lone_surrogate (Node.utf8 128512) = false
  /\ has_lone_surrogate "cat.png" = false.
Proof. repeat split; vm_compute; reflexivity. Qed.

(** The reference host at work. *)
Example node_host_at_work :
  basename "/tmp/cat.png" = "cat.png"
  /\ encodeURIComponent "cat photo (1).png" = "cat%20photo%20(1).png"
  /\ JSON_parse template = inr (JObj [("destinations", JArr [JStr ""])])
  /\ JSON_stringify (JObj [("destinations", JArr [JStr ""])]) = compact_template
  /\ JSON_stringify extracted
     = "{" ++ Node.quote "success" ++ ":true," ++ Node.quote "text" ++ ":"
       ++ Node.quote "hello" ++ "," ++ Node.quote "creditsLeft" ++ ":86.115}"
  /\ JSON_parse "[1, 2.50, 1e3, -0]"
     = inr (JArr [JNum 1 0; JNum 25 (-1); JNum 1 3; JNum 0 0])
  /\ JSON_parse "[1, 2,]" = inl Node.syntax_error.
Proof. repeat split; vm_compute; reflexivity. Qed.

(** *** C1 *)

(** C1 fails as stated: with the structure [{not valid json], which the
    parser rejects, [process] on an existing file first issues the
    upload-URL request and the upload, waits, and only then fails.  The
    empty string is no JSON text either, and it is not even parsed: the
    run succeeds. *)
Lemma invalid_structure_after_two_requests :
  JSON_parse "{not valid json" = inl Node.syntax_error
  /\ settle (process client cat None None (Some "{not valid json")) happy
     = ([Http get_cat; Http put_cat; Timer 200],
        inl (Error "outputStructure must be valid JSON: Unexpected token in JSON"))
  /\ existsb is_http
       (fst (settle (process client cat None None (Some "{not valid json")) happy))
     = true
  /\ JSON_parse "" = inl Node.syntax_error
  /\ snd (settle (process client cat None None (Some "")) happy) = inr extracted.
Proof. repeat split; vm_compute; reflexivity. Qed.

Lemma invalid_structure_witness :
  (exists e, snd (settle (process client cat None None (Some "{not valid json"))
                    happy) = inl e)
  /\ (forall r,
        In (Http r)
          (fst (settle (process client cat None None (Some "{not valid json"))
                  happy)) ->
        req_method r <> POST)
  /\ settle (process client cat None None (Some "{not valid json")) happy
     = ([Http get_cat; Http put_cat; Timer 200],
        inl (Error ("outputStructure must be valid JSON: " ++ Node.syntax_error))).
Proof.
  destruct (invalid_structure_fails_before_extraction client cat None None
              "{not valid json" Node.syntax_error happy)
    as (Hfails & Hnopost & Hexact).
  - discriminate.
  - reflexivity.
  - split; [ exact Hfails | split; [ exact Hnopost | ] ].
    apply (Hexact stats_of_cat info_of_cat stored_cat); reflexivity.
Defined.

(** *** C2 *)

Lemma process_returns_extraction_witness :
  settle (process client cat (Some "structured") None (Some template)) happy
  = ([Http get_cat; Http put_cat; Timer 200;
      Http (post_cat [("imageUrl", ufsUrl_of_cat);
                      ("outputType", JStr "structured");
                      ("outputStructure", JStr compact_template)])],
     inr extracted).
Proof.
  refine (proj1 (process_returns_extraction client happy cat stats_of_cat
                   info_of_cat stored_cat
                   eq_refl eq_refl eq_refl eq_refl eq_refl eq_refl eq_refl
                   (Some "structured") None (Some template)
                   (Some compact_template) (mkResponse 200 extracted) _ _ _ _)).
  - reflexivity.
  - reflexivity.
  - reflexivity.
  - vm_compute. discriminate.
Defined.

(** *** C3 *)

(** C3 fails on the code.  A transport failure of the extraction request
    reaches the caller with the message of [imageToText] alone: the prefix
    [Image processing failed:] of [process] is missing.  The same failure one
    phase earlier does get both layers. *)
Theorem extraction_failure_escapes_outer_catch :
  settle (process client cat None None None)
    (world (ok destination) (ok stored) hang_up)
  = ([Http get_cat; Http put_cat; Timer 200; Http (post_cat plain_payload)],
     inl (Error "Failed to process image: socket hang up"))
  /\ settle (process client cat None None None)
       (world (ok destination) hang_up hang_up)
     = ([Http get_cat; Http put_cat],
        inl (Error "Image processing failed: Failed to upload file: socket hang up")).
Proof. split; vm_compute; reflexivity. Qed.

(** *** C4 *)

Lemma process_rejects_missing_file_witness :
  regular_file happy "/tmp/dog.png" = false
  /\ regular_file happy "/tmp" = false
  /\ settle (process client "/tmp/dog.png" None None None) happy
     = ([], inl (Error "File not found or is not a file: /tmp/dog.png"))
  /\ settle (process client "/tmp" None None None) happy
     = ([], inl (Error "File not found or is not a file: /tmp")).
Proof.
  split; [ reflexivity | split; [ reflexivity | split ] ].
  - apply (process_rejects_missing_file client "/tmp/dog.png"). reflexivity.
  - apply (process_rejects_missing_file client "/tmp"). reflexivity.
Defined.

(** *** C5 and C6 *)

Lemma missing_destination_field_witness :
  settle (process client cat None None None) keyless
  = ([Http get_cat],
     inl (Error ("Image processing failed: Failed to get upload URL: "
                 ++ "Invalid upload-url response: Missing URL or Key. Status: 200"))).
Proof.
  refine (missing_destination_field_stops_process client cat None None None
            keyless stats_of_cat
            (mkResponse 200 (JObj [("url", JStr "https://storage.example/put/abc")]))
            _ _ _ _).
  - reflexivity.
  - reflexivity.
  - reflexivity.
  - right. reflexivity.
Defined.

Lemma missing_ufsUrl_witness :
  settle (process client cat None None None)
    (world (ok destination) (ok (JObj [])) (ok extracted))
  = ([Http get_cat; Http put_cat],
     inl (Error ("Image processing failed: Failed to upload file: "
                 ++ "Invalid upload response: Missing UFS URL. Status: 200"))).
Proof.
  refine (missing_ufsUrl_stops_process client cat None None None
            (world (ok destination) (ok (JObj [])) (ok extracted)) stats_of_cat
            info_of_cat (mkResponse 200 (JObj [])) _ _ _ _ _ _ _); reflexivity.
Defined.

(** *** C7 *)

Lemma explicit_failure_witness :
  settle (process client cat (Some "raw") (Some "") (Some ""))
    (world (ok destination) (ok stored) (ok out_of_credit))
  = ([Http get_cat; Http put_cat; Timer 200; Http (post_cat plain_payload)],
     inl (Error ("Failed to process image: Processing failed: "
                 ++ Node.quote "no credits left"))).
Proof.
  refine (proj2 (proj1 (explicit_failure_raises client
                          (world (ok destination) (ok stored) (ok out_of_credit))
                          cat stats_of_cat info_of_cat stored_cat
                          eq_refl eq_refl eq_refl eq_refl eq_refl eq_refl eq_refl
                          "raw" "" "" None (mkResponse 200 out_of_credit) _ _) _)).
  - reflexivity.
  - reflexivity.
  - reflexivity.
Defined.

(** *** C9 *)

Lemma credential_contract_witness :
  constructor JUndefined
  = inl (Error "API Key is required and must be a string.")
  /\ constructor (JStr "")
     = inl (Error "API Key is required and must be a string.")
  /\ constructor (JNum 42 0)
     = inl (Error "API Key is required and must be a string.")
  /\ exists this,
       constructor (JStr "KEY") = inr this
       /\ headers this = [("Authorization", "Bearer KEY")]
       /\ forall p ot d os w r,
            In (Http r) (fst (settle (process this p ot d os) w)) ->
            lookup "Authorization" (req_headers r) = Some "Bearer KEY".
Proof.
  split; [ | split; [ | split ] ].
  - apply (credential_contract JUndefined ""). right. left. reflexivity.
  - apply (credential_contract (JStr "") ""). left. reflexivity.
  - apply (credential_contract (JNum 42 0) ""). right. right. reflexivity.
  - apply (credential_contract (JStr "KEY") "KEY"); [ reflexivity | discriminate ].
Defined.

(** *** C10 *)

(** C10 fails as stated: a body that is [null] has no [success] field, yet
    reading [data.success] raises a [TypeError] and the run ends in an error. *)
Lemma null_body_is_an_error :
  field JNull "success" = JUndefined
  /\ settle (process client cat None None None)
       (world (ok destination) (ok stored) (ok JNull))
     = ([Http get_cat; Http put_cat; Timer 200; Http (post_cat plain_payload)],
        inl (Error ("Failed to process image: "
                    ++ "Cannot read properties of null (reading 'success')"))).
Proof. split; vm_compute; reflexivity. Qed.

Lemma only_literal_false_fails_witness :
  snd (settle (process client cat None None None)
         (world (ok destination) (ok stored) (ok zero_flag)))
  = inr zero_flag.
Proof.
  refine (only_literal_false_fails client
            (world (ok destination) (ok stored) (ok zero_flag)) cat stats_of_cat
            info_of_cat stored_cat
            eq_refl eq_refl eq_refl eq_refl eq_refl eq_refl eq_refl
            None None None None (mkResponse 200 zero_flag) _ _ _ _).
  - reflexivity.
  - reflexivity.
  - reflexivity.
  - vm_compute. discriminate.
Defined.

(** Absent, [null], the string [false] and a non-JSON text body all pass. *)
Example other_flags_pass :
  Forall (fun body =>
            snd (settle (process client cat None None None)
                   (world (ok destination) (ok stored) (ok body)))
            = inr body)
    [JObj [("text", JStr "hi")];
     JObj [("success", JNull)];
     JObj [("success", JStr "false")];
     JStr "<html>"].
Proof. repeat constructor. Qed.

(** *** Further runs *)

Lemma imageToText_rejects_invalid_structure_witness :
  await (imageToText client ufsUrl_of_cat None None (Some "{not valid json")) happy
  = ([], inl (Error ("outputStructure must be valid JSON: " ++ Node.syntax_error))).
Proof.
  refine (imageToText_rejects_invalid_structure client ufsUrl_of_cat None None
            "{not valid json" Node.syntax_error happy _ _).
  - discriminate.
  - reflexivity.
Defined.

Lemma extraction_rejection_witness :
  settle (process client cat None None None)
    (world (ok destination) (ok stored) refused_status)
  = ([Http get_cat; Http put_cat; Timer 200; Http (post_cat plain_payload)],
     inl (Error ("API call failed: 402 - " ++ JSON_stringify payment_required)))
  /\ settle (process client cat None None None)
       (world (ok destination) (ok stored) hang_up)
     = ([Http get_cat; Http put_cat; Timer 200; Http (post_cat plain_payload)],
        inl (Error "Failed to process image: socket hang up")).
Proof.
  split.
  - refine (proj1 (extraction_rejection_reported_by_kind client
                     (world (ok destination) (ok stored) refused_status) cat
                     stats_of_cat info_of_cat stored_cat
                     eq_refl eq_refl eq_refl eq_refl eq_refl eq_refl eq_refl
                     None None None None
                     (mkJsError "AxiosError" "Request failed with status code 402"
                        (Axios (Some (mkResponse 402 payment_required)))) _ _)
                  (mkResponse 402 payment_required) _); reflexivity.
  - refine (proj2 (extraction_rejection_reported_by_kind client
                     (world (ok destination) (ok stored) hang_up) cat
                     stats_of_cat info_of_cat stored_cat
                     eq_refl eq_refl eq_refl eq_refl eq_refl eq_refl eq_refl
                     None None None None
                     (mkJsError "AxiosError" "socket hang up" (Axios None)) _ _)
                  _);
      [ reflexivity | reflexivity | left; reflexivity ].
Defined.

Lemma unreadable_extraction_body_witness :
  settle (process client cat None None None)
    (world (ok destination) (ok stored) (ok JUndefined))
  = ([Http get_cat; Http put_cat; Timer 200; Http (post_cat plain_payload)],
     inl (Error ("Failed to process image: "
                 ++ "Cannot read properties of undefined (reading 'success')"))).
Proof.
  refine (unreadable_extraction_body_fails client
            (world (ok destination) (ok stored) (ok JUndefined)) cat
            stats_of_cat info_of_cat stored_cat
            eq_refl eq_refl eq_refl eq_refl eq_refl eq_refl eq_refl
            None None None None (mkResponse 200 JUndefined) _ _ _); reflexivity.
Defined.

Lemma upload_url_rejection_witness :
  settle (process client cat None None None)
    (world refused_status (ok stored) (ok extracted))
  = ([Http get_cat],
     inl (Error ("Image processing failed: Failed to get upload URL: "
                 ++ "Request failed with status code 402"))).
Proof.
  refine (upload_url_rejection_stops_process client cat None None None
            (world refused_status (ok stored) (ok extracted)) stats_of_cat
            (mkJsError "AxiosError" "Request failed with status code 402"
               (Axios (Some (mkResponse 402 payment_required)))) _ _ _);
    reflexivity.
Defined.

Lemma upload_rejection_witness :
  settle (process client cat None None None)
    (world (ok destination) refused_status (ok extracted))
  = ([Http get_cat; Http put_cat],
     inl (Error ("Image processing failed: Failed to upload file: "
                 ++ "Request failed with status code 402"))).
Proof.
  refine (upload_rejection_stops_process client cat None None None
            (world (ok destination) refused_status (ok extracted)) stats_of_cat
            info_of_cat
            (mkJsError "AxiosError" "Request failed with status code 402"
               (Axios (Some (mkResponse 402 payment_required))))
            _ _ _ _ _ _); reflexivity.
Defined.

Lemma falsy_destination_field_witness :
  settle (process client cat None None None)
    (world (ok empty_url) (ok stored) (ok extracted))
  = ([Http get_cat],
     inl (Error ("Image processing failed: Failed to get upload URL: "
                 ++ "Invalid upload-url response: Missing URL or Key. Status: 200"))).
Proof.
  refine (falsy_destination_field_stops_process client cat None None None
            (world (ok empty_url) (ok stored) (ok extracted)) stats_of_cat
            (mkResponse 200 empty_url) _ _ _ _ _);
    try reflexivity.
  left. reflexivity.
Defined.

Lemma falsy_ufsUrl_witness :
  settle (process client cat None None None)
    (world (ok destination) (ok null_ufsUrl) (ok extracted))
  = ([Http get_cat; Http put_cat],
     inl (Error ("Image processing failed: Failed to upload file: "
                 ++ "Invalid upload response: Missing UFS URL. Status: 200"))).
Proof.
  refine (falsy_ufsUrl_stops_process client cat None None None
            (world (ok destination) (ok null_ufsUrl) (ok extracted)) stats_of_cat
            info_of_cat (mkResponse 200 null_ufsUrl) _ _ _ _ _ _ _ _);
    reflexivity.
Defined.

Lemma process_result_witness :
  nullish extracted = false /\ field extracted "success" <> JBool false.
Proof.
  pose proof (process_result_is_extraction_body client cat None None None happy
                extracted eq_refl) as H.
  exact (conj (proj1 H) (proj1 (proj2 H))).
Defined.

Lemma process_errors_are_plain_witness :
  err_name (Error "Failed to process image: socket hang up") = "Error"
  /\ err_kind (Error "Failed to process image: socket hang up") = Plain
  /\ err_message (Error "Failed to process image: socket hang up") <> "".
Proof.
  refine (process_errors_are_plain client cat None None None
            (world (ok destination) (ok stored) hang_up)
            (Error "Failed to process image: socket hang up") _).
  reflexivity.
Defined.

Lemma request_shapes_witness :
  req_body put_cat = FormBody [mkFormPart "file" cat "cat.png"]
  /\ req_unbounded put_cat = true
  /\ truthy (req_url put_cat) = true.
Proof.
  refine (request_shapes client cat None None None happy put_cat _).
  vm_compute. right. left. reflexivity.
Defined.

Lemma run_ignores_key_witness :
  settle (process client cat None None None)
    (mkWorld disk (transport_with other_destination) "----boundary")
  = settle (process client cat None None None) happy.
Proof.
  refine (run_ignores_key client cat None None None happy
            (mkWorld disk (transport_with other_destination) "----boundary")
            stats_of_cat info_of_cat other_destination _ _ _ _ _ _ _ _ _ _ _);
    try reflexivity.
  intros r Hr. cbn. unfold transport_with, transport.
  destruct (req_method r); [ contradiction | reflexivity | reflexivity ].
Defined.

Lemma structures_with_same_parse_witness :
  settle (process client cat None None (Some compact_template)) happy
  = settle (process client cat None None (Some template)) happy.
Proof.
  refine (structures_with_same_parse_run_alike client cat None None template
            compact_template (JObj [("destinations", JArr [JStr ""])]) happy
            _ _ _ _).
  - discriminate.
  - discriminate.
  - reflexivity.
  - reflexivity.
Defined.

Lemma constructed_client_requests_witness :
  req_headers (post_cat plain_payload)
  = [("Authorization", "Bearer KEY"); ("Content-Type", "application/json")]
  /\ req_url (post_cat plain_payload) = JStr "https://img2txt.io/api/image-to-text".
Proof.
  refine (constructed_client_requests (JStr "KEY") client cat None None None
            happy (post_cat plain_payload) _ _).
  - reflexivity.
  - vm_compute. do 3 right. left. reflexivity.
Defined.

Lemma process_settles_as_imageToText_witness :
  settle (process client cat None None None) happy
  = ((uploaded client happy cat stats_of_cat info_of_cat
      ++ fst (await (imageToText client ufsUrl_of_cat (Some "raw") (Some "")
                       (Some "")) happy))%list,
     snd (await (imageToText client ufsUrl_of_cat (Some "raw") (Some "")
                   (Some "")) happy)).
Proof.
  exact (process_settles_as_imageToText client happy cat stats_of_cat
           info_of_cat stored_cat
           eq_refl eq_refl eq_refl eq_refl eq_refl eq_refl eq_refl
           None None None).
Defined.

End Scenarios.
